(** * Connection management of clickhousedb_fdw

    A shallow embedding of [clickhousedb_connection.c]: the connection
    cache [ConnectionHash], [GetConnection], the factory
    [clickhouse_connect], the invalidation callback, the transaction
    callbacks and the sanity check
    [pgfdw_reject_incomplete_xact_state_change].

    The backend is modelled as a record [World] that holds the static
    variables of the file, the catalog the file reads, and the trace of
    the calls the file makes to its collaborators (transports, callback
    registration, the server log).  A function that may leave through
    [elog(ERROR)] / [ereport(ERROR)] returns a [result]; what it wrote to
    the cache before the error stays written, as in the backend, where
    the hash table lives in [CacheMemoryContext]. *)

From Stdlib Require Import ZArith NArith String Ascii List DecimalString.
From stdpp Require Import base option gmap list fin_maps.

Local Open Scope Z_scope.
Local Open Scope string_scope.

(** ** Data model *)

(** [Oid] and [uint32] are unsigned 32-bit integers.  The file only
    stores them and compares them for equality, so nothing wraps; the
    same holds for the [int] depth, which is set to 0 and tested
    against 0. *)
Abbreviation Oid := N (only parsing).
Abbreviation uint32 := N (only parsing).

(** [void *]: an address, [NULL] is 0. *)
Abbreviation pointer := N (only parsing).
Definition NULL : pointer := 0%N.

(** A [DefElem] of an option list: the option's name and its string value. *)
Record DefElem := mkDefElem { defname : string; defvalue : string }.

Record ForeignServer := mkForeignServer {
  serverid : Oid;
  servername : string;
  options : list DefElem
}.

Record UserMapping := mkUserMapping {
  umid : Oid;
  um_userid : Oid;
  um_serverid : Oid;
  um_options : list DefElem
}.

(** [ch_connection]: the transport handle and the address of its
    operation table. *)
Record ch_connection := mkGate {
  conn : pointer;
  methods : pointer
}.

(** [ch_connection_details], in the order of the initialiser
    [{"127.0.0.1", 8123, NULL, NULL, "default"}]; a [char *] that may be
    [NULL] is an [option string]. *)
Record ch_connection_details := mkDetails {
  host : string;
  port : Z;
  username : option string;
  password : option string;
  dbname : string
}.

Record ConnCacheKey := mkKey {
  userid : Oid;
  read : bool
}.

(** The body of a [ConnCacheEntry]; its [key] field is the key under
    which the hash table holds it. *)
Record ConnCacheEntry := mkEntry {
  gate : ch_connection;
  xact_depth : Z;
  have_error : bool;
  changing_xact_state : bool;
  invalidated : bool;
  entry_read : bool;
  server_hashvalue : uint32;
  mapping_hashvalue : uint32
}.

#[global] Instance ConnCacheKey_eq_dec : EqDecision ConnCacheKey.
Proof. solve_decision. Defined.

#[global] Instance ConnCacheKey_countable : Countable ConnCacheKey.
Proof.
  refine (inj_countable' (fun k => (userid k, read k))
                         (fun p => mkKey p.1 p.2) _).
  intros []; reflexivity.
Defined.

#[global] Instance ch_connection_eq_dec : EqDecision ch_connection.
Proof. solve_decision. Defined.

(** The syscache identifiers the file names; any other cache is
    [OTHERCACHEID]. *)
Inductive SysCacheIdentifier :=
| FOREIGNSERVEROID
| USERMAPPINGOID
| OTHERCACHEID.

#[global] Instance SysCacheIdentifier_eq_dec : EqDecision SysCacheIdentifier.
Proof. solve_decision. Defined.

Inductive XactEvent :=
| XACT_EVENT_COMMIT
| XACT_EVENT_PARALLEL_COMMIT
| XACT_EVENT_ABORT
| XACT_EVENT_PARALLEL_ABORT
| XACT_EVENT_PREPARE
| XACT_EVENT_PRE_COMMIT
| XACT_EVENT_PARALLEL_PRE_COMMIT
| XACT_EVENT_PRE_PREPARE.

Inductive SubXactEvent :=
| SUBXACT_EVENT_START_SUB
| SUBXACT_EVENT_COMMIT_SUB
| SUBXACT_EVENT_ABORT_SUB
| SUBXACT_EVENT_PRE_COMMIT_SUB.

(** ** Errors *)

Inductive SqlState :=
| ERRCODE_INTERNAL_ERROR
| ERRCODE_CONNECTION_EXCEPTION
| ERRCODE_OTHER (code : string).

(** What [elog(ERROR, ...)] and [ereport(ERROR, ...)] throw. *)
Record PgError := mkError {
  sqlerrcode : SqlState;
  message : string
}.

Inductive result (A : Type) :=
| Ok (a : A)
| Err (e : PgError).
Arguments Ok {A} a.
Arguments Err {A} e.

(** ** Trace of calls to collaborators *)

Inductive LogLevel := DEBUG3 | LOG.

Inductive Event :=
| EvRegisterXactCallback
| EvRegisterSubXactCallback
| EvRegisterSyscacheCallback (cacheid : SysCacheIdentifier)
| EvLog (level : LogLevel) (msg : string)
| EvNewConnectionLog (c : pointer) (server : string) (um user : Oid)
| EvDisconnect (g : ch_connection)
| EvHttpConnect (connstring : string) (outcome : result ch_connection)
| EvBinaryConnect (details : ch_connection_details)
                  (outcome : result ch_connection).

(** ** The backend state the file works on *)

(** [ConnectionHash] is [None] while the static pointer is [NULL].  The
    catalog gives, for the oid of a foreign server, its name and options,
    and for the oid of a user mapping, the oid of its server.  The trace
    has the latest event first.  The counters [cursor_number] and
    [prep_stmt_number] are declared in the file and used nowhere in it. *)
Record World := mkWorld {
  ConnectionHash : option (gmap ConnCacheKey ConnCacheEntry);
  xact_got_connection : bool;
  pg_foreign_server : gmap N (string * list DefElem);
  pg_user_mapping : gmap N N;
  trace : list Event
}.

(** A computation of the backend: it changes the state and returns a
    value or throws. *)

Definition M (A : Type) : Type := World -> World * result A.

#[global] Instance M_ret : MRet M := fun A a w => (w, Ok a).
#[global] Instance M_bind : MBind M := fun A B f m w =>
  match m w with
  | (w', Ok a) => f a w'
  | (w', Err e) => (w', Err e)
  end.

Definition raise {A} (e : PgError) : M A := fun w => (w, Err e).
Definition get_world : M World := fun w => (w, Ok w).
Definition modify_world (f : World -> World) : M unit := fun w => (f w, Ok tt).

(** The primitive writes, as functions on the state. *)

Definition add_event (ev : Event) (w : World) : World :=
  mkWorld (ConnectionHash w) (xact_got_connection w)
          (pg_foreign_server w) (pg_user_mapping w) (ev :: trace w).

Definition put_table (m : gmap ConnCacheKey ConnCacheEntry) (w : World) : World :=
  mkWorld (Some m) (xact_got_connection w)
          (pg_foreign_server w) (pg_user_mapping w) (trace w).

Definition put_flag (b : bool) (w : World) : World :=
  mkWorld (ConnectionHash w) b
          (pg_foreign_server w) (pg_user_mapping w) (trace w).

(** The entries of the table; an uncreated table has none. *)
Definition entries (w : World) : gmap ConnCacheKey ConnCacheEntry :=
  default ∅ (ConnectionHash w).

Definition put_entry (key : ConnCacheKey) (entry : ConnCacheEntry) (w : World)
  : World :=
  put_table (<[key := entry]> (entries w)) w.

Definition emit (ev : Event) : M unit := modify_world (add_event ev).

Definition set_table (m : gmap ConnCacheKey ConnCacheEntry) : M unit :=
  modify_world (put_table m).

Definition set_xact_got_connection (b : bool) : M unit :=
  modify_world (put_flag b).

(** A write through an entry pointer: [entry->field = ...]. *)
Definition store (key : ConnCacheKey) (entry : ConnCacheEntry) : M unit :=
  modify_world (put_entry key entry).

(** ** Field updates *)

Definition set_conn (c : pointer) (e : ConnCacheEntry) : ConnCacheEntry :=
  mkEntry (mkGate c (methods (gate e))) (xact_depth e) (have_error e)
          (changing_xact_state e) (invalidated e) (entry_read e)
          (server_hashvalue e) (mapping_hashvalue e).

Definition set_gate (g : ch_connection) (e : ConnCacheEntry) : ConnCacheEntry :=
  mkEntry g (xact_depth e) (have_error e)
          (changing_xact_state e) (invalidated e) (entry_read e)
          (server_hashvalue e) (mapping_hashvalue e).

Definition set_invalidated (b : bool) (e : ConnCacheEntry) : ConnCacheEntry :=
  mkEntry (gate e) (xact_depth e) (have_error e)
          (changing_xact_state e) b (entry_read e)
          (server_hashvalue e) (mapping_hashvalue e).

(** ** Formatting *)

Definition dquote : string := String (ascii_of_nat 34) EmptyString.

(** [%u] and [%d] of [psprintf] / [elog]. *)
Definition fmt_u (n : N) : string := NilZero.string_of_uint (N.to_uint n).
Definition fmt_d (z : Z) : string := NilZero.string_of_int (Z.to_int z).

(** ** Collaborators

    What the file calls but does not define.  The transports answer a
    connect request with a gate or with an error; the answer may depend
    on everything that happened before, so they read the trace. *)

(** The settings a connection option can name. *)
Inductive Field :=
| F_driver
| F_host
| F_port
| F_dbname
| F_username
| F_password.

#[global] Instance Field_eq_dec : EqDecision Field.
Proof. solve_decision. Defined.

Class Externals := {
  (** the setting an option name stands for, if any *)
  option_field : string -> option Field;
  (** the integer a port option's string denotes *)
  port_of_string : string -> Z;
  http_connect : string -> list Event -> result ch_connection;
  binary_connect : ch_connection_details -> list Event -> result ch_connection;
  (** the syscache hash of a one-column key *)
  GetSysCacheHashValue1 : SysCacheIdentifier -> Oid -> uint32;
  (** what a newly allocated hash entry holds before anything is written *)
  uninitialized : ConnCacheEntry
}.

Section Connection.

Context `{!Externals}.

(** The out-parameters of [ExtractConnectionOptions]: [driver] and the
    fields of [details]. *)
Definition Settings : Type := string * ch_connection_details.

(** Modelled from the spec: one step of [ExtractConnectionOptions], the
    effect of a single option on the out-parameters.  Which setting an
    option name stands for, and how the string of a port is read, are
    left to [option_field] and [port_of_string]. *)
Definition apply_option (s : Settings) (def : DefElem) : Settings :=
  let '(driver, d) := s in
  match option_field (defname def) with
  | Some F_driver => (defvalue def, d)
  | Some F_host =>
      (driver, mkDetails (defvalue def) (port d) (username d) (password d) (dbname d))
  | Some F_port =>
      (driver, mkDetails (host d) (port_of_string (defvalue def)) (username d)
                         (password d) (dbname d))
  | Some F_dbname =>
      (driver, mkDetails (host d) (port d) (username d) (password d) (defvalue def))
  | Some F_username =>
      (driver, mkDetails (host d) (port d) (Some (defvalue def)) (password d) (dbname d))
  | Some F_password =>
      (driver, mkDetails (host d) (port d) (username d) (Some (defvalue def)) (dbname d))
  | None => s
  end.

(** Modelled from the spec: [ExtractConnectionOptions], whose source file
    is not among the sources.  It walks the option list in order and
    writes each named setting into its out-parameter, so that a later
    option overrides an earlier one and a setting no option names is left
    as it was. *)
Definition ExtractConnectionOptions (defelems : list DefElem) (s : Settings)
  : Settings :=
  fold_left apply_option defelems s.

Definition default_settings : Settings :=
  ("http", mkDetails "127.0.0.1" 8123 None None "default").

(** The first half of [clickhouse_connect]: the defaults, then the
    server's options, then the user mapping's. *)
Definition resolve (server : ForeignServer) (user : UserMapping) : Settings :=
  ExtractConnectionOptions (um_options user)
    (ExtractConnectionOptions (options server) default_settings).

Definition http_connstring (d : ch_connection_details) : string :=
  match username d, password d with
  | Some u, Some p =>
      "http://" ++ u ++ ":" ++ p ++ "@" ++ host d ++ ":" ++ fmt_d (port d) ++ "/"
  | Some u, None =>
      "http://" ++ u ++ "@" ++ host d ++ ":" ++ fmt_d (port d) ++ "/"
  | None, _ =>
      "http://" ++ host d ++ ":" ++ fmt_d (port d) ++ "/"
  end.

(** A call of a transport: its answer is recorded and handed on. *)
Definition call_http_connect (connstring : string) : M ch_connection :=
  fun w =>
    let r := http_connect connstring (trace w) in
    (add_event (EvHttpConnect connstring r) w, r).

Definition call_binary_connect (d : ch_connection_details) : M ch_connection :=
  fun w =>
    let r := binary_connect d (trace w) in
    (add_event (EvBinaryConnect d r) w, r).

Definition invalid_driver_error : PgError :=
  mkError ERRCODE_INTERNAL_ERROR "invalid ClickHouse connection driver".

Definition clickhouse_connect (server : ForeignServer) (user : UserMapping)
  : M ch_connection :=
  let '(driver, details) := resolve server user in
  if String.eqb driver "http" then
    call_http_connect (http_connstring details)
  else if String.eqb driver "binary" then
    call_binary_connect details
  else
    raise invalid_driver_error.

Definition server_lookup_error (id : Oid) : PgError :=
  mkError ERRCODE_INTERNAL_ERROR
    ("cache lookup failed for foreign server " ++ fmt_u id).

(** PostgreSQL's [GetForeignServer]: the server of that oid, or an error
    when the catalog has none. *)
Definition GetForeignServer (id : Oid) : M ForeignServer :=
  w ← get_world;
  match pg_foreign_server w !! id with
  | Some (name, opts) => mret (mkForeignServer id name opts)
  | None => raise (server_lookup_error id)
  end.

Definition connection_lost_error (name : string) : PgError :=
  mkError ERRCODE_CONNECTION_EXCEPTION
    ("connection to server " ++ dquote ++ name ++ dquote ++ " was lost").

Definition mapping_lookup_error (id : Oid) : PgError :=
  mkError ERRCODE_INTERNAL_ERROR
    ("cache lookup failed for user mapping " ++ fmt_u id).

(** [entry] is what the pointer of the source points to: the contents of
    the entry that the table holds under [key]. *)
Definition pgfdw_reject_incomplete_xact_state_change
    (key : ConnCacheKey) (entry : ConnCacheEntry) : M unit :=
  if (conn (gate entry) =? NULL)%N || negb (changing_xact_state entry) then
    mret tt
  else
    emit (EvDisconnect (gate entry)) ;;
    store key (set_conn NULL entry) ;;
    w ← get_world;
    match pg_user_mapping w !! userid key with
    | None => raise (mapping_lookup_error (userid key))
    | Some umserver =>
        server ← GetForeignServer umserver;
        raise (connection_lost_error (servername server))
    end.

(** First use: create the table and register the callbacks. *)
Definition init_ConnectionHash : M unit :=
  w ← get_world;
  match ConnectionHash w with
  | Some _ => mret tt
  | None =>
      set_table ∅ ;;
      emit EvRegisterXactCallback ;;
      emit EvRegisterSubXactCallback ;;
      emit (EvRegisterSyscacheCallback FOREIGNSERVEROID) ;;
      emit (EvRegisterSyscacheCallback USERMAPPINGOID)
  end.

(** [hash_search(ConnectionHash, &key, HASH_ENTER, &found)], with the
    key read as its two fields.  That is the key as the source takes it
    to be ("Assume no pad bytes in key struct"); the bytes that
    [hash_search] really compares are modelled in [Padded] below. *)
Definition hash_search_enter (key : ConnCacheKey) : M (ConnCacheEntry * bool) :=
  w ← get_world;
  match entries w !! key with
  | Some entry => mret (entry, true)
  | None => store key uninitialized ;; mret (uninitialized, false)
  end.

(** "Find or create cached entry for requested connection." *)
Definition find_or_create_entry (key : ConnCacheKey) : M ConnCacheEntry :=
  r ← hash_search_enter key;
  let entry : ConnCacheEntry := r.1 in
  let found : bool := r.2 in
  if found then mret entry
  else store key (set_conn NULL entry) ;; mret (set_conn NULL entry).

(** "If the connection needs to be remade due to invalidation, disconnect
    as soon as we're out of all transactions." *)
Definition disconnect_if_invalidated (key : ConnCacheKey) (entry : ConnCacheEntry)
  : M ConnCacheEntry :=
  if negb (conn (gate entry) =? NULL)%N && invalidated entry
     && (xact_depth entry =? 0)%Z
  then
    emit (EvLog LOG "closing connection to ClickHouse due to invalidation") ;;
    emit (EvDisconnect (gate entry)) ;;
    store key (set_conn NULL entry) ;;
    mret (set_conn NULL entry)
  else mret entry.

(** The transient fields as [GetConnection] resets them. *)
Definition reset_entry (user : UserMapping) (read_ : bool) (server : ForeignServer)
    (entry : ConnCacheEntry) : ConnCacheEntry :=
  mkEntry (gate entry) 0 false false false read_
          (GetSysCacheHashValue1 FOREIGNSERVEROID (serverid server))
          (GetSysCacheHashValue1 USERMAPPINGOID (umid user)).

(** "If cache entry doesn't have a connection, we have to establish a new
    connection." *)
Definition establish_connection (key : ConnCacheKey) (user : UserMapping)
    (read_ : bool) (entry : ConnCacheEntry) : M ConnCacheEntry :=
  server ← GetForeignServer (um_serverid user);
  let entry := reset_entry user read_ server entry in
  store key entry ;;
  g ← clickhouse_connect server user;
  store key (set_gate g entry) ;;
  emit (EvNewConnectionLog (conn g) (servername server) (umid user)
                           (um_userid user)) ;;
  mret (set_gate g entry).

Definition GetConnection (user : UserMapping) (will_prep_stmt read_ : bool)
  : M ch_connection :=
  init_ConnectionHash ;;
  set_xact_got_connection true ;;
  let key := mkKey (umid user) read_ in
  entry ← find_or_create_entry key;
  pgfdw_reject_incomplete_xact_state_change key entry ;;
  entry ← disconnect_if_invalidated key entry;
  entry ← (if (conn (gate entry) =? NULL)%N
           then establish_connection key user read_ entry
           else mret entry);
  mret (gate entry).

(** The two transaction callbacks have empty bodies. *)
Definition pgfdw_xact_callback (event : XactEvent) (arg : pointer) : M unit :=
  mret tt.

Definition pgfdw_subxact_callback (event : SubXactEvent)
    (mySubid parentSubid : N) (arg : pointer) : M unit :=
  mret tt.

(** The body of the scan loop of [pgfdw_inval_callback]. *)
Definition inval_entry (cacheid : SysCacheIdentifier) (hashvalue : uint32)
    (entry : ConnCacheEntry) : ConnCacheEntry :=
  if (conn (gate entry) =? NULL)%N then entry
  else if (hashvalue =? 0)%N
          || (bool_decide (cacheid = FOREIGNSERVEROID)
              && (server_hashvalue entry =? hashvalue)%N)
          || (bool_decide (cacheid = USERMAPPINGOID)
              && (mapping_hashvalue entry =? hashvalue)%N)
       then set_invalidated true entry
       else entry.

(** The callback is registered when the table is created, so it finds
    the table; with no table there is no entry to visit.  The [Assert]
    on [cacheid] is compiled only into assert-enabled builds and changes
    nothing. *)
Definition pgfdw_inval_callback (arg : N) (cacheid : SysCacheIdentifier)
    (hashvalue : uint32) : M unit :=
  w ← get_world;
  match ConnectionHash w with
  | Some m => set_table (inval_entry cacheid hashvalue <$> m)
  | None => mret tt
  end.

(** ** What a call did, read off the state

    The statements below talk about a call through the events it added
    to the trace and through the entries it left in the table. *)

(** The gates handed to a transport's [disconnect]. *)
Fixpoint disconnected (tr : list Event) : list ch_connection :=
  match tr with
  | [] => []
  | EvDisconnect g :: tr => g :: disconnected tr
  | _ :: tr => disconnected tr
  end.

(** The answer of a transport to a connect request. *)
Definition connect_outcome (ev : Event) : option (result ch_connection) :=
  match ev with
  | EvHttpConnect _ r => Some r
  | EvBinaryConnect _ r => Some r
  | _ => None
  end.

(** The connect requests made, with their answers. *)
Definition connects (tr : list Event) : list (result ch_connection) :=
  omap connect_outcome tr.

Definition failed_open (ev : Event) : option PgError :=
  match connect_outcome ev with
  | Some (Err e) => Some e
  | _ => None
  end.

Definition live_gate (g : ch_connection) : list ch_connection :=
  if (conn g =? NULL)%N then [] else [g].

(** The gates the transports opened. *)
Fixpoint opened (tr : list Event) : list ch_connection :=
  match tr with
  | [] => []
  | ev :: tr =>
      match connect_outcome ev with
      | Some (Ok g) => live_gate g ++ opened tr
      | _ => opened tr
      end
  end.

(** The gates the table holds, one per entry at most. *)
Definition held (m : gmap ConnCacheKey ConnCacheEntry) : list ch_connection :=
  map_to_list m ≫= (fun kv => live_gate (gate kv.2)).

(** The balance of opens and disconnects: the gates that were opened are
    those the table holds and those that were disconnected. *)
Definition balanced (w : World) : Prop :=
  opened (trace w) ≡ₚ (held (entries w) ++ disconnected (trace w))%list.

(** The callbacks registered on first use, latest first. *)
Definition registrations : list Event :=
  [EvRegisterSyscacheCallback USERMAPPINGOID;
   EvRegisterSyscacheCallback FOREIGNSERVEROID;
   EvRegisterSubXactCallback; EvRegisterXactCallback].

(** The events of the first-use block. *)
Definition first_use_events (w : World) : list Event :=
  match ConnectionHash w with
  | Some _ => nil
  | None => registrations
  end.

(** The state after the first-use block. *)
Definition init_world (w : World) : World :=
  match ConnectionHash w with
  | Some _ => w
  | None => mkWorld (Some ∅) (xact_got_connection w) (pg_foreign_server w)
                    (pg_user_mapping w) (registrations ++ trace w)
  end.

(** The entry [GetConnection] works on, and the state in which it starts
    to work on it. *)
Definition looked_up (key : ConnCacheKey) (w : World) : ConnCacheEntry :=
  default (set_conn NULL uninitialized) (entries w !! key).

Definition after_lookup (key : ConnCacheKey) (w : World) : World :=
  let w1 := put_flag true (init_world w) in
  match entries w !! key with
  | Some _ => w1
  | None =>
      put_entry key (set_conn NULL uninitialized) (put_entry key uninitialized w1)
  end.

(** The entry is in the middle of a state change. *)
Definition mid_change (e : ConnCacheEntry) : bool :=
  negb (conn (gate e) =? NULL)%N && changing_xact_state e.

(** The entry's gate is to be closed because of an invalidation. *)
Definition stale (e : ConnCacheEntry) : bool :=
  negb (conn (gate e) =? NULL)%N && invalidated e && (xact_depth e =? 0)%Z.

(** [GetConnection] finds no gate to return for [key]: the entry is new,
    or its gate is absent, or its gate is stale and about to be closed
    (the entry then passes the sanity check). *)
Definition finds_no_gate (key : ConnCacheKey) (w : World) : Prop :=
  match entries w !! key with
  | None => True
  | Some e =>
      conn (gate e) = NULL
      \/ (changing_xact_state e = false /\ invalidated e = true
          /\ xact_depth e = 0)
  end.

(** The error the sanity check leaves with. *)
Definition reject_error (key : ConnCacheKey) (w : World) : PgError :=
  match pg_user_mapping w !! userid key with
  | None => mapping_lookup_error (userid key)
  | Some umserver =>
      match pg_foreign_server w !! umserver with
      | Some (name, _) => connection_lost_error name
      | None => server_lookup_error umserver
      end
  end.

(** What [clickhouse_connect] does after a history [tr]: the transport
    call it makes, if any, and its result. *)
Definition connect_attempt (server : ForeignServer) (user : UserMapping)
    (tr : list Event) : option Event * result ch_connection :=
  let '(driver, details) := resolve server user in
  if String.eqb driver "http" then
    let r := http_connect (http_connstring details) tr in
    (Some (EvHttpConnect (http_connstring details) r), r)
  else if String.eqb driver "binary" then
    let r := binary_connect details tr in
    (Some (EvBinaryConnect details r), r)
  else (None, Err invalid_driver_error).

(** The events of the invalidation teardown, latest first. *)
Definition teardown_events (e : ConnCacheEntry) : list Event :=
  if stale e then
    [EvDisconnect (gate e);
     EvLog LOG "closing connection to ClickHouse due to invalidation"]
  else nil.

Section Paths.

Variables (user : UserMapping) (read_ : bool) (w : World).

Local Abbreviation key := (mkKey (umid user) read_).
Local Abbreviation e0 := (looked_up key w).
Local Abbreviation server_of name opts :=
  (mkForeignServer (um_serverid user) name opts).

(** The ways through [GetConnection user _ read_] from a state [w]: the
    events the call adds (latest first), the contents it leaves in the
    entry, and what it returns. *)
Inductive GetConnection_path
  : list Event -> ConnCacheEntry -> result ch_connection -> Prop :=
| path_reject :
    mid_change e0 = true ->
    GetConnection_path
      (EvDisconnect (gate e0) :: first_use_events w)
      (set_conn NULL e0)
      (Err (reject_error key w))
| path_hit :
    mid_change e0 = false -> stale e0 = false ->
    conn (gate e0) <> NULL ->
    GetConnection_path nil e0 (Ok (gate e0))
| path_no_server :
    mid_change e0 = false ->
    stale e0 = true \/ conn (gate e0) = NULL ->
    pg_foreign_server w !! um_serverid user = None ->
    GetConnection_path
      (teardown_events e0 ++ first_use_events w)
      (set_conn NULL e0)
      (Err (server_lookup_error (um_serverid user)))
| path_connect_fail name opts oev err :
    mid_change e0 = false ->
    stale e0 = true \/ conn (gate e0) = NULL ->
    pg_foreign_server w !! um_serverid user = Some (name, opts) ->
    connect_attempt (server_of name opts) user
      (teardown_events e0 ++ first_use_events w ++ trace w) = (oev, Err err) ->
    GetConnection_path
      (option_list oev ++ teardown_events e0 ++ first_use_events w)
      (reset_entry user read_ (server_of name opts) (set_conn NULL e0))
      (Err err)
| path_connect_ok name opts oev g :
    mid_change e0 = false ->
    stale e0 = true \/ conn (gate e0) = NULL ->
    pg_foreign_server w !! um_serverid user = Some (name, opts) ->
    connect_attempt (server_of name opts) user
      (teardown_events e0 ++ first_use_events w ++ trace w) = (oev, Ok g) ->
    GetConnection_path
      (EvNewConnectionLog (conn g) name (umid user) (um_userid user)
         :: option_list oev ++ teardown_events e0 ++ first_use_events w)
      (set_gate g (reset_entry user read_ (server_of name opts)
                     (set_conn NULL e0)))
      (Ok g).

End Paths.

(** A boundary of the local transaction, as delivered to the callbacks. *)
Inductive Boundary :=
| XactBoundary (event : XactEvent) (arg : pointer)
| SubXactBoundary (event : SubXactEvent) (mySubid parentSubid : N) (arg : pointer).

Definition deliver (b : Boundary) : M unit :=
  match b with
  | XactBoundary event arg => pgfdw_xact_callback event arg
  | SubXactBoundary event my parent arg =>
      pgfdw_subxact_callback event my parent arg
  end.

Fixpoint deliver_all (bs : list Boundary) : M unit :=
  match bs with
  | [] => mret tt
  | b :: bs => deliver b ;; deliver_all bs
  end.

(** A run of [GetConnection] calls for one [read] flag; every call is
    made, whatever the earlier ones returned. *)
Fixpoint acquire_all (read_ : bool) (calls : list (UserMapping * bool))
    (w : World) : World * list (result ch_connection) :=
  match calls with
  | [] => (w, [])
  | (user, will_prep_stmt) :: calls =>
      let '(w1, r) := GetConnection user will_prep_stmt read_ w in
      let '(w2, rs) := acquire_all read_ calls w1 in
      (w2, r :: rs)
  end.

(** The states the backend passes through: it starts with no table, and
    then calls [GetConnection], delivers invalidations and transaction
    boundaries, and changes the catalog. *)
Inductive reachable : World -> Prop :=
| reach_start fs um : reachable (mkWorld None false fs um [])
| reach_acquire w user will_prep_stmt read_ :
    reachable w -> reachable (GetConnection user will_prep_stmt read_ w).1
| reach_inval w arg cacheid hashvalue :
    reachable w -> reachable (pgfdw_inval_callback arg cacheid hashvalue w).1
| reach_boundary w b :
    reachable w -> reachable (deliver b w).1
| reach_catalog w fs um :
    reachable w ->
    reachable (mkWorld (ConnectionHash w) (xact_got_connection w) fs um (trace w)).

(** ** Reading the resolved settings *)

Inductive FieldValue :=
| VString (s : string)
| VInt (z : Z)
| VAbsent.

Definition field_value (f : Field) (s : Settings) : FieldValue :=
  match f with
  | F_driver => VString s.1
  | F_host => VString (host s.2)
  | F_port => VInt (port s.2)
  | F_dbname => VString (dbname s.2)
  | F_username => from_option VString VAbsent (username s.2)
  | F_password => from_option VString VAbsent (password s.2)
  end.

(** The value an option string gives to a setting. *)
Definition denote (f : Field) (v : string) : FieldValue :=
  match f with
  | F_port => VInt (port_of_string v)
  | _ => VString v
  end.

(** The value of the last option of the list that names [f]. *)
Fixpoint setting (f : Field) (defelems : list DefElem) : option string :=
  match defelems with
  | [] => None
  | def :: rest =>
      match setting f rest with
      | Some v => Some v
      | None =>
          if bool_decide (option_field (defname def) = Some f)
          then Some (defvalue def) else None
      end
  end.

(** ** What the file keeps true of the table *)

Definition is_registration (ev : Event) : bool :=
  match ev with
  | EvRegisterXactCallback
  | EvRegisterSubXactCallback
  | EvRegisterSyscacheCallback _ => true
  | _ => false
  end.

(** The callback registrations among the events, in their order. *)
Fixpoint registered (tr : list Event) : list Event :=
  match tr with
  | nil => nil
  | ev :: tr => if is_registration ev then ev :: registered tr else registered tr
  end.

(** An entry as [GetConnection] leaves it when it installs a gate, as far
    as no later write of the file changes it: no transaction open, no
    error, no state change in progress, and the [read] flag and the
    mapping fingerprint of its own key. *)
Definition at_rest (k : ConnCacheKey) (e : ConnCacheEntry) : Prop :=
  xact_depth e = 0
  /\ have_error e = false
  /\ changing_xact_state e = false
  /\ entry_read e = read k
  /\ mapping_hashvalue e = GetSysCacheHashValue1 USERMAPPINGOID (userid k).

(** Every entry that holds a gate is at rest. *)
Definition kept (w : World) : Prop :=
  forall k e, entries w !! k = Some e -> conn (gate e) <> NULL -> at_rest k e.

End Connection.

(** * The table as [hash_search] reads its keys

    The table is created with [keysize = sizeof(ConnCacheKey)] and
    [HASH_BLOBS], so [hash_search] hashes and compares every byte of the
    key it is given.  The key of [GetConnection] is a local variable of
    which the two fields are assigned and nothing else: the bytes of the
    struct that belong to no field hold what the stack held.

    The fields are an [Oid] of four bytes and a [bool] of one byte
    ([key.userid = user->umid], [key.read = read]); the struct has the
    alignment of the [Oid], so its size is a multiple of four and at
    least three of its bytes are assigned by no statement of
    [GetConnection].

    The functions of the file that work on the table follow again, with
    the key as those bytes: the fields, and the rest as a further
    argument of [GetConnection].  Nothing else differs from the model
    above; [GetConnection_same_stack] below shows that the two agree
    when the rest is the same at every call. *)

Module Padded.

Record KeyBytes := mkKeyBytes {
  fields : ConnCacheKey;
  padding : N
}.

#[global] Instance KeyBytes_eq_dec : EqDecision KeyBytes.
Proof. solve_decision. Defined.

#[global] Instance KeyBytes_countable : Countable KeyBytes.
Proof.
  refine (inj_countable' (fun k => (fields k, padding k))
                         (fun p => mkKeyBytes p.1 p.2) _).
  intros []; reflexivity.
Defined.

Record World := mkWorld {
  ConnectionHash : option (gmap KeyBytes ConnCacheEntry);
  xact_got_connection : bool;
  pg_foreign_server : gmap N (string * list DefElem);
  pg_user_mapping : gmap N N;
  trace : list Event
}.

Definition M (A : Type) : Type := World -> World * result A.

#[local] Instance M_ret : MRet M := fun A a w => (w, Ok a).
#[local] Instance M_bind : MBind M := fun A B f m w =>
  match m w with
  | (w', Ok a) => f a w'
  | (w', Err e) => (w', Err e)
  end.

Definition raise {A} (e : PgError) : M A := fun w => (w, Err e).
Definition get_world : M World := fun w => (w, Ok w).
Definition modify_world (f : World -> World) : M unit := fun w => (f w, Ok tt).

Definition add_event (ev : Event) (w : World) : World :=
  mkWorld (ConnectionHash w) (xact_got_connection w)
          (pg_foreign_server w) (pg_user_mapping w) (ev :: trace w).

Definition put_table (m : gmap KeyBytes ConnCacheEntry) (w : World) : World :=
  mkWorld (Some m) (xact_got_connection w)
          (pg_foreign_server w) (pg_user_mapping w) (trace w).

Definition put_flag (b : bool) (w : World) : World :=
  mkWorld (ConnectionHash w) b
          (pg_foreign_server w) (pg_user_mapping w) (trace w).

Definition entries (w : World) : gmap KeyBytes ConnCacheEntry :=
  default ∅ (ConnectionHash w).

Definition put_entry (key : KeyBytes) (entry : ConnCacheEntry) (w : World)
  : World :=
  put_table (<[key := entry]> (entries w)) w.

Definition emit (ev : Event) : M unit := modify_world (add_event ev).

Definition set_table (m : gmap KeyBytes ConnCacheEntry) : M unit :=
  modify_world (put_table m).

Definition set_xact_got_connection (b : bool) : M unit :=
  modify_world (put_flag b).

Definition store (key : KeyBytes) (entry : ConnCacheEntry) : M unit :=
  modify_world (put_entry key entry).

Section Connection.

Context `{!Externals}.

Definition call_http_connect (connstring : string) : M ch_connection :=
  fun w =>
    let r := http_connect connstring (trace w) in
    (add_event (EvHttpConnect connstring r) w, r).

Definition call_binary_connect (d : ch_connection_details) : M ch_connection :=
  fun w =>
    let r := binary_connect d (trace w) in
    (add_event (EvBinaryConnect d r) w, r).

Definition clickhouse_connect (server : ForeignServer) (user : UserMapping)
  : M ch_connection :=
  let '(driver, details) := resolve server user in
  if String.eqb driver "http" then
    call_http_connect (http_connstring details)
  else if String.eqb driver "binary" then
    call_binary_connect details
  else
    raise invalid_driver_error.

Definition GetForeignServer (id : Oid) : M ForeignServer :=
  w ← get_world;
  match pg_foreign_server w !! id with
  | Some (name, opts) => mret (mkForeignServer id name opts)
  | None => raise (server_lookup_error id)
  end.

Definition pgfdw_reject_incomplete_xact_state_change
    (key : KeyBytes) (entry : ConnCacheEntry) : M unit :=
  if (conn (gate entry) =? NULL)%N || negb (changing_xact_state entry) then
    mret tt
  else
    emit (EvDisconnect (gate entry)) ;;
    store key (set_conn NULL entry) ;;
    w ← get_world;
    match pg_user_mapping w !! userid (fields key) with
    | None => raise (mapping_lookup_error (userid (fields key)))
    | Some umserver =>
        server ← GetForeignServer umserver;
        raise (connection_lost_error (servername server))
    end.

Definition init_ConnectionHash : M unit :=
  w ← get_world;
  match ConnectionHash w with
  | Some _ => mret tt
  | None =>
      set_table ∅ ;;
      emit EvRegisterXactCallback ;;
      emit EvRegisterSubXactCallback ;;
      emit (EvRegisterSyscacheCallback FOREIGNSERVEROID) ;;
      emit (EvRegisterSyscacheCallback USERMAPPINGOID)
  end.

(** [hash_search(ConnectionHash, &key, HASH_ENTER, &found)]: an entry is
    found when all the bytes of its key are those of [key]. *)
Definition hash_search_enter (key : KeyBytes) : M (ConnCacheEntry * bool) :=
  w ← get_world;
  match entries w !! key with
  | Some entry => mret (entry, true)
  | None => store key uninitialized ;; mret (uninitialized, false)
  end.

Definition find_or_create_entry (key : KeyBytes) : M ConnCacheEntry :=
  r ← hash_search_enter key;
  let entry : ConnCacheEntry := r.1 in
  let found : bool := r.2 in
  if found then mret entry
  else store key (set_conn NULL entry) ;; mret (set_conn NULL entry).

Definition disconnect_if_invalidated (key : KeyBytes) (entry : ConnCacheEntry)
  : M ConnCacheEntry :=
  if negb (conn (gate entry) =? NULL)%N && invalidated entry
     && (xact_depth entry =? 0)%Z
  then
    emit (EvLog LOG "closing connection to ClickHouse due to invalidation") ;;
    emit (EvDisconnect (gate entry)) ;;
    store key (set_conn NULL entry) ;;
    mret (set_conn NULL entry)
  else mret entry.

Definition establish_connection (key : KeyBytes) (user : UserMapping)
    (read_ : bool) (entry : ConnCacheEntry) : M ConnCacheEntry :=
  server ← GetForeignServer (um_serverid user);
  let entry := reset_entry user read_ server entry in
  store key entry ;;
  g ← clickhouse_connect server user;
  store key (set_gate g entry) ;;
  emit (EvNewConnectionLog (conn g) (servername server) (umid user)
                           (um_userid user)) ;;
  mret (set_gate g entry).

(** [stack] is what the bytes of the local variable [key] hold where no
    field is assigned. *)
Definition GetConnection (user : UserMapping) (will_prep_stmt read_ : bool)
    (stack : N) : M ch_connection :=
  init_ConnectionHash ;;
  set_xact_got_connection true ;;
  let key := mkKeyBytes (mkKey (umid user) read_) stack in
  entry ← find_or_create_entry key;
  pgfdw_reject_incomplete_xact_state_change key entry ;;
  entry ← disconnect_if_invalidated key entry;
  entry ← (if (conn (gate entry) =? NULL)%N
           then establish_connection key user read_ entry
           else mret entry);
  mret (gate entry).

(** The entries of the table for one pair of user mapping and intent,
    whatever their padding. *)
Definition entries_of (k : ConnCacheKey) (w : World)
  : list (KeyBytes * ConnCacheEntry) :=
  List.filter (fun kv => bool_decide (fields kv.1 = k)) (map_to_list (entries w)).

End Connection.

End Padded.

(** The state of the model above as a state of [Padded], when the bytes
    of the key outside its fields are [stack] in every key of the table. *)
Definition with_stack (stack : N) (w : World) : Padded.World :=
  Padded.mkWorld
    (match ConnectionHash w with
     | Some m =>
         Some (kmap (M2 := gmap Padded.KeyBytes)
                 (fun k => Padded.mkKeyBytes k stack) m)
     | None => None
     end)
    (xact_got_connection w) (pg_foreign_server w) (pg_user_mapping w)
    (trace w).

(** [m'] on the key bytes does what [m] does on the key fields. *)
Definition same_run {A} (stack : N) (m : M A) (m' : Padded.M A) : Prop :=
  forall w, m' (with_stack stack w) = (with_stack stack (m w).1, (m w).2).

(** * A concrete backend

    One choice of collaborators and a few states, on which the
    statements below are run. *)

Definition demo_option_field (s : string) : option Field :=
  if String.eqb s "driver" then Some F_driver
  else if String.eqb s "host" then Some F_host
  else if String.eqb s "port" then Some F_port
  else if String.eqb s "dbname" then Some F_dbname
  else if String.eqb s "user" then Some F_username
  else if String.eqb s "password" then Some F_password
  else None.

Definition digit_of_ascii (c : ascii) : option Z :=
  let n := Z.of_N (N_of_ascii c) in
  if ((48 <=? n) && (n <=? 57))%Z then Some (n - 48) else None.

(** The leading decimal digits of a string. *)
Fixpoint demo_atoi_from (acc : Z) (s : string) : Z :=
  match s with
  | EmptyString => acc
  | String c rest =>
      match digit_of_ascii c with
      | Some d => demo_atoi_from (acc * 10 + d) rest
      | None => acc
      end
  end.

Definition demo_refused : PgError :=
  mkError (ERRCODE_OTHER "08001") "could not connect to server".

Definition is_connect (ev : Event) : bool :=
  match connect_outcome ev with
  | Some _ => true
  | None => false
  end.

(** The http transport hands out a new handle at each request; the host
    flaky refuses the first request of a backend. *)
Definition demo_http_connect (connstring : string) (tr : list Event)
  : result ch_connection :=
  if String.eqb connstring "http://flaky:8123/" && negb (existsb is_connect tr)
  then Err demo_refused
  else Ok (mkGate (100 + N.of_nat (length tr))%N 1%N).

Definition demo_binary_connect (d : ch_connection_details) (tr : list Event)
  : result ch_connection :=
  Ok (mkGate (200 + N.of_nat (length tr))%N 2%N).

Definition demo_hash (cacheid : SysCacheIdentifier) (id : N) : N :=
  match cacheid with
  | FOREIGNSERVEROID => (2 * id + 1)%N
  | _ => (3 * id + 1)%N
  end.

Definition demo_uninitialized : ConnCacheEntry :=
  mkEntry (mkGate 77%N 78%N) 5 true true true true 9%N 9%N.

Definition demo : Externals := {|
  option_field := demo_option_field;
  port_of_string := demo_atoi_from 0;
  http_connect := demo_http_connect;
  binary_connect := demo_binary_connect;
  GetSysCacheHashValue1 := demo_hash;
  uninitialized := demo_uninitialized
|}.

Definition demo_servers : gmap N (string * list DefElem) :=
  {[ 10%N := ("ch1", [mkDefElem "host" "A"]) ]}.

Definition demo_mappings : gmap N N := {[ 20%N := 10%N ]}.

(** A backend that has not used the cache yet. *)
Definition demo_start : World :=
  mkWorld None false demo_servers demo_mappings [].

Definition demo_user : UserMapping :=
  mkUserMapping 20%N 5%N 10%N [mkDefElem "host" "B"; mkDefElem "user" "bob"].

Definition demo_flaky_user : UserMapping :=
  mkUserMapping 20%N 5%N 10%N [mkDefElem "host" "flaky"].

Definition demo_native_user : UserMapping :=
  mkUserMapping 20%N 5%N 10%N [mkDefElem "driver" "native"].

Definition demo_key : ConnCacheKey := mkKey 20%N false.

Definition demo_gate : ch_connection := mkGate 104%N 1%N.

(** The entry of [demo_user] with a gate, at a given depth and with given
    flags. *)
Definition demo_entry (depth : Z) (changing invalid : bool) : ConnCacheEntry :=
  mkEntry demo_gate depth false changing invalid false 21%N 61%N.

Definition demo_table (e : ConnCacheEntry) : gmap ConnCacheKey ConnCacheEntry :=
  {[ demo_key := e ]}.

Definition demo_world (e : ConnCacheEntry) : World :=
  mkWorld (Some (demo_table e)) true demo_servers demo_mappings [].

(** The same, after the user mapping was dropped from the catalog. *)
Definition demo_orphan (e : ConnCacheEntry) : World :=
  mkWorld (Some (demo_table e)) true demo_servers ∅ [].

(** The same, after the foreign server was dropped from the catalog. *)
Definition demo_unserved (e : ConnCacheEntry) : World :=
  mkWorld (Some (demo_table e)) true ∅ demo_mappings [].

(** A backend that has not used the cache yet, for [Padded]. *)
Definition demo_padded_start : Padded.World :=
  Padded.mkWorld None false demo_servers demo_mappings [].

(** * Properties *)

Local Open Scope list_scope.

Section Facts.

Context `{!Externals}.

(** ** Running the monad *)

Lemma bind_Ok {A B} (m : M A) (f : A -> M B) w w' a :
  m w = (w', Ok a) -> (m ≫= f) w = f a w'.
Proof. intros E. unfold mbind, M_bind. rewrite E. reflexivity. Qed.

Lemma bind_Err {A B} (m : M A) (f : A -> M B) w w' e :
  m w = (w', Err e) -> (m ≫= f) w = (w', Err e).
Proof. intros E. unfold mbind, M_bind. rewrite E. reflexivity. Qed.

(** ** The blocks of [GetConnection] *)

Lemma init_ConnectionHash_eq w : init_ConnectionHash w = (init_world w, Ok tt).
Proof.
  unfold init_ConnectionHash, init_world.
  destruct w as [[m|] f fs um tr]; reflexivity.
Qed.

Lemma entries_init_world w : entries (init_world w) = entries w.
Proof. destruct w as [[m|] f fs um tr]; reflexivity. Qed.

Lemma find_or_create_entry_eq key w :
  find_or_create_entry key (put_flag true (init_world w))
  = (after_lookup key w, Ok (looked_up key w)).
Proof.
  unfold find_or_create_entry, hash_search_enter, after_lookup, looked_up.
  unfold mbind, M_bind, get_world.
  change (entries (put_flag true (init_world w))) with (entries (init_world w)).
  rewrite entries_init_world.
  destruct (entries w !! key) as [e|]; reflexivity.
Qed.

Lemma GetConnection_unfold user wps rd w :
  GetConnection user wps rd w
  = (pgfdw_reject_incomplete_xact_state_change (mkKey (umid user) rd)
       (looked_up (mkKey (umid user) rd) w) ;;
     entry ← disconnect_if_invalidated (mkKey (umid user) rd)
               (looked_up (mkKey (umid user) rd) w);
     entry ← (if (conn (gate entry) =? NULL)%N
              then establish_connection (mkKey (umid user) rd) user rd entry
              else mret entry);
     mret (gate entry)) (after_lookup (mkKey (umid user) rd) w).
Proof.
  unfold GetConnection.
  rewrite (bind_Ok _ _ _ _ _ (init_ConnectionHash_eq w)).
  rewrite (bind_Ok _ _ (init_world w) (put_flag true (init_world w)) tt eq_refl).
  rewrite (bind_Ok _ _ _ _ _ (find_or_create_entry_eq _ w)).
  reflexivity.
Qed.

Lemma reject_pass key e w :
  mid_change e = false ->
  pgfdw_reject_incomplete_xact_state_change key e w = (w, Ok tt).
Proof.
  unfold mid_change, pgfdw_reject_incomplete_xact_state_change.
  destruct (conn (gate e) =? NULL)%N, (changing_xact_state e);
    simpl; intros; try discriminate; reflexivity.
Qed.

Lemma reject_fail key e w :
  mid_change e = true ->
  pgfdw_reject_incomplete_xact_state_change key e w
  = (put_entry key (set_conn NULL e) (add_event (EvDisconnect (gate e)) w),
     Err (reject_error key w)).
Proof.
  unfold mid_change, pgfdw_reject_incomplete_xact_state_change, reject_error.
  destruct (conn (gate e) =? NULL)%N, (changing_xact_state e);
    simpl; intros; try discriminate.
  unfold mbind, M_bind, emit, store, modify_world, get_world, GetForeignServer.
  cbn [pg_user_mapping pg_foreign_server put_entry put_table add_event].
  destruct (pg_user_mapping w !! userid key) as [s|]; [|reflexivity].
  unfold mbind, M_bind, get_world.
  cbn [pg_user_mapping pg_foreign_server put_entry put_table add_event].
  destruct (pg_foreign_server w !! s) as [[name opts]|]; reflexivity.
Qed.

Lemma disconnect_if_invalidated_keep key e w :
  stale e = false -> disconnect_if_invalidated key e w = (w, Ok e).
Proof.
  unfold stale, disconnect_if_invalidated. intros ->. reflexivity.
Qed.

Lemma disconnect_if_invalidated_close key e w :
  stale e = true ->
  disconnect_if_invalidated key e w
  = (put_entry key (set_conn NULL e)
       (add_event (EvDisconnect (gate e))
          (add_event
             (EvLog LOG "closing connection to ClickHouse due to invalidation")
             w)),
     Ok (set_conn NULL e)).
Proof.
  unfold stale, disconnect_if_invalidated. intros ->. reflexivity.
Qed.

Lemma clickhouse_connect_eq server user w :
  clickhouse_connect server user w
  = (from_option (fun ev => add_event ev w) w
       (connect_attempt server user (trace w)).1,
     (connect_attempt server user (trace w)).2).
Proof.
  unfold clickhouse_connect, connect_attempt.
  destruct (resolve server user) as [driver details].
  destruct (String.eqb driver "http"); [reflexivity|].
  destruct (String.eqb driver "binary"); reflexivity.
Qed.

Lemma establish_connection_eq key user rd e w :
  establish_connection key user rd e w =
  match pg_foreign_server w !! um_serverid user with
  | None => (w, Err (server_lookup_error (um_serverid user)))
  | Some (name, opts) =>
      let server := mkForeignServer (um_serverid user) name opts in
      let e1 := reset_entry user rd server e in
      let w1 := put_entry key e1 w in
      let a := connect_attempt server user (trace w) in
      let w2 := from_option (fun ev => add_event ev w1) w1 a.1 in
      match a.2 with
      | Err err => (w2, Err err)
      | Ok g =>
          (add_event (EvNewConnectionLog (conn g) name (umid user) (um_userid user))
             (put_entry key (set_gate g e1) w2),
           Ok (set_gate g e1))
      end
  end.
Proof.
  unfold establish_connection, GetForeignServer.
  unfold mbind at 1. unfold M_bind at 1.
  unfold mbind at 1. unfold M_bind at 1. unfold get_world at 1.
  destruct (pg_foreign_server w !! um_serverid user) as [[name opts]|];
    [|reflexivity].
  cbn zeta.
  unfold mret at 1. unfold M_ret at 1.
  unfold mbind at 1. unfold M_bind at 1. unfold store at 1. unfold modify_world at 1.
  unfold mbind at 1. unfold M_bind at 1.
  rewrite clickhouse_connect_eq.
  change (trace (put_entry key _ w)) with (trace w).
  destruct (connect_attempt _ user (trace w)) as [oev [g|err]]; reflexivity.
Qed.

Lemma GetConnection_eq user wps rd w :
  let key := mkKey (umid user) rd in
  let e0 := looked_up key w in
  let w0 := after_lookup key w in
  GetConnection user wps rd w =
  if mid_change e0 then
    (put_entry key (set_conn NULL e0) (add_event (EvDisconnect (gate e0)) w0),
     Err (reject_error key w0))
  else if stale e0 then
    (e ← establish_connection key user rd (set_conn NULL e0); mret (gate e))
      (put_entry key (set_conn NULL e0)
         (add_event (EvDisconnect (gate e0))
            (add_event
               (EvLog LOG "closing connection to ClickHouse due to invalidation")
               w0)))
  else if (conn (gate e0) =? NULL)%N then
    (e ← establish_connection key user rd e0; mret (gate e)) w0
  else (w0, Ok (gate e0)).
Proof.
  intros key e0 w0. rewrite GetConnection_unfold. fold key. fold e0. fold w0.
  destruct (mid_change e0) eqn:Hmid.
  - apply bind_Err. apply reject_fail, Hmid.
  - rewrite (bind_Ok _ _ _ _ _ (reject_pass key e0 w0 Hmid)).
    destruct (stale e0) eqn:Hst.
    + rewrite (bind_Ok _ _ _ _ _ (disconnect_if_invalidated_close key e0 w0 Hst)).
      reflexivity.
    + rewrite (bind_Ok _ _ _ _ _ (disconnect_if_invalidated_keep key e0 w0 Hst)).
      destruct (conn (gate e0) =? NULL)%N; reflexivity.
Qed.

Lemma after_lookup_eq key w :
  after_lookup key w
  = mkWorld (Some (<[key := looked_up key w]> (entries w))) true
            (pg_foreign_server w) (pg_user_mapping w)
            (first_use_events w ++ trace w).
Proof.
  unfold after_lookup, looked_up, first_use_events, init_world, entries.
  destruct w as [[m|] f fs um tr]; cbn.
  - destruct (m !! key) as [e|] eqn:E; cbn.
    + rewrite (insert_id _ _ _ E). reflexivity.
    + unfold put_entry, put_table, entries. cbn.
      rewrite insert_insert_eq. reflexivity.
  - rewrite lookup_empty. cbn. unfold put_entry, put_table, entries. cbn.
    rewrite insert_insert_eq. reflexivity.
Qed.

Lemma set_conn_NULL_id e : conn (gate e) = NULL -> set_conn NULL e = e.
Proof.
  destruct e as [[c m] d he ch inv r sh mh]. cbn. intros ->. reflexivity.
Qed.

Lemma looked_up_present key w :
  conn (gate (looked_up key w)) <> NULL -> first_use_events w = nil.
Proof.
  unfold looked_up, first_use_events, entries.
  destruct (ConnectionHash w); [reflexivity|].
  cbn. rewrite lookup_empty. cbn. intros Hc. contradiction Hc. reflexivity.
Qed.

Lemma stale_present e : stale e = true -> (conn (gate e) =? NULL)%N = false.
Proof.
  unfold stale. destruct (conn (gate e) =? NULL)%N; [discriminate|reflexivity].
Qed.

(** Closes a goal that equates two states built from the same writes. *)
Ltac same_world :=
  unfold put_entry, put_table, add_event, entries; cbn;
  rewrite ?insert_insert_eq, <- ?app_assoc; reflexivity.

(** Every call of [GetConnection] goes one of the five ways. *)
Lemma GetConnection_run user wps rd w :
  exists new e' r,
    GetConnection_path user rd w new e' r
    /\ GetConnection user wps rd w
       = (mkWorld (Some (<[mkKey (umid user) rd := e']> (entries w))) true
                  (pg_foreign_server w) (pg_user_mapping w)
                  (new ++ trace w), r).
Proof.
  pose proof (GetConnection_eq user wps rd w) as Heq. cbn zeta in Heq.
  set (key := mkKey (umid user) rd) in *.
  set (e0 := looked_up key w) in *.
  rewrite after_lookup_eq in Heq. fold e0 in Heq.
  destruct (mid_change e0) eqn:Hmid.
  { eexists _, _, _. split; [apply path_reject; exact Hmid|].
    rewrite Heq. same_world. }
  assert (Hest : forall tevs,
    (stale e0 = true \/ conn (gate e0) = NULL) ->
    tevs = teardown_events e0 ->
    exists new e' r,
      GetConnection_path user rd w new e' r
      /\ (e ← establish_connection key user rd (set_conn NULL e0); mret (gate e))
           (mkWorld (Some (<[key := set_conn NULL e0]> (entries w))) true
              (pg_foreign_server w) (pg_user_mapping w)
              (tevs ++ first_use_events w ++ trace w))
         = (mkWorld (Some (<[key := e']> (entries w))) true
              (pg_foreign_server w) (pg_user_mapping w) (new ++ trace w), r)).
  { intros tevs Habs ->.
    unfold mbind at 1. unfold M_bind at 1.
    rewrite establish_connection_eq. cbn [pg_foreign_server trace].
    destruct (pg_foreign_server w !! um_serverid user) as [[name opts]|] eqn:Hs.
    - cbn zeta.
      destruct (connect_attempt (mkForeignServer (um_serverid user) name opts)
                  user (teardown_events e0 ++ first_use_events w ++ trace w))
        as [oev [g|err]] eqn:Hca; cbn [fst snd].
      + eexists _, _, _. split.
        { eapply path_connect_ok; eauto. }
        fold key. fold e0.
        destruct oev as [ev|]; same_world.
      + eexists _, _, _. split.
        { eapply path_connect_fail; eauto. }
        fold key. fold e0.
        destruct oev as [ev|]; same_world.
    - eexists _, _, _. split.
      { eapply path_no_server; eauto. }
      fold key. fold e0. cbn. rewrite <- app_assoc. reflexivity. }
  destruct (stale e0) eqn:Hst.
  { destruct (Hest (teardown_events e0)) as (new & e' & r & Hp & Hr);
      [left; reflexivity | reflexivity |].
    exists new, e', r. split; [exact Hp|]. rewrite Heq, <- Hr.
    unfold teardown_events. rewrite Hst. same_world. }
  destruct (N.eqb_spec (conn (gate e0)) NULL) as [Hc | Hc].
  { destruct (Hest (teardown_events e0)) as (new & e' & r & Hp & Hr);
      [right; exact Hc | reflexivity |].
    exists new, e', r. split; [exact Hp|]. rewrite Heq, <- Hr.
    unfold teardown_events. rewrite Hst.
    rewrite (set_conn_NULL_id e0 Hc). reflexivity. }
  eexists _, _, _. split; [apply path_hit; eassumption|].
  rewrite Heq. fold key. fold e0.
  rewrite (looked_up_present key w Hc). reflexivity.
Qed.

(** ** What the events of a call say *)

Lemma looked_up_found key w e : entries w !! key = Some e -> looked_up key w = e.
Proof. unfold looked_up. intros ->. reflexivity. Qed.

Lemma first_use_events_found key w e :
  entries w !! key = Some e -> first_use_events w = [].
Proof.
  unfold entries, first_use_events. destruct (ConnectionHash w); [reflexivity|].
  cbn. rewrite lookup_empty. discriminate.
Qed.

Lemma stale_true_iff e :
  stale e = true <->
  conn (gate e) <> NULL /\ invalidated e = true /\ xact_depth e = 0%Z.
Proof.
  unfold stale.
  destruct (N.eqb_spec (conn (gate e)) NULL), (invalidated e),
    (Z.eqb_spec (xact_depth e) 0); cbn; intuition congruence.
Qed.

Lemma mid_change_false_iff e :
  mid_change e = false <->
  conn (gate e) = NULL \/ changing_xact_state e = false.
Proof.
  unfold mid_change.
  destruct (N.eqb_spec (conn (gate e)) NULL), (changing_xact_state e);
    cbn; intuition congruence.
Qed.

Lemma mid_change_true_iff e :
  mid_change e = true <->
  conn (gate e) <> NULL /\ changing_xact_state e = true.
Proof.
  unfold mid_change.
  destruct (N.eqb_spec (conn (gate e)) NULL), (changing_xact_state e);
    cbn; intuition congruence.
Qed.

Lemma disconnected_app a b :
  disconnected (a ++ b) = disconnected a ++ disconnected b.
Proof.
  induction a as [|ev a IH]; [reflexivity|].
  destruct ev; cbn; rewrite ?IH; reflexivity.
Qed.

Lemma connects_app a b : connects (a ++ b) = connects a ++ connects b.
Proof. apply omap_app. Qed.

Lemma opened_app a b : opened (a ++ b) = opened a ++ opened b.
Proof.
  induction a as [|ev a IH]; [reflexivity|].
  cbn. destruct (connect_outcome ev) as [[g|err]|]; rewrite ?IH, ?app_assoc;
    reflexivity.
Qed.

Lemma first_use_events_quiet w :
  disconnected (first_use_events w) = []
  /\ connects (first_use_events w) = []
  /\ opened (first_use_events w) = [].
Proof.
  unfold first_use_events. destruct (ConnectionHash w); repeat split.
Qed.

Lemma teardown_events_quiet e :
  disconnected (teardown_events e) = (if stale e then [gate e] else [])
  /\ connects (teardown_events e) = []
  /\ opened (teardown_events e) = [].
Proof.
  unfold teardown_events. destruct (stale e); repeat split.
Qed.

Lemma connect_attempt_event server user tr oev r :
  connect_attempt server user tr = (oev, r) ->
  (oev = None /\ r = Err invalid_driver_error
   /\ (resolve server user).1 <> "http"%string
   /\ (resolve server user).1 <> "binary"%string)
  \/ (exists ev, oev = Some ev /\ connect_outcome ev = Some r
       /\ ((resolve server user).1 = "http"%string
           \/ (resolve server user).1 = "binary"%string)).
Proof.
  unfold connect_attempt. destruct (resolve server user) as [driver d].
  cbn [fst].
  destruct (String.eqb_spec driver "http").
  { intros [= <- <-]. right. eexists. repeat split. auto. }
  destruct (String.eqb_spec driver "binary").
  { intros [= <- <-]. right. eexists. repeat split. auto. }
  intros [= <- <-]. left. auto.
Qed.

Lemma connect_attempt_quiet server user tr oev r :
  connect_attempt server user tr = (oev, r) ->
  disconnected (option_list oev) = []
  /\ connects (option_list oev) = match oev with Some _ => [r] | None => [] end
  /\ opened (option_list oev)
     = match r with Ok g => live_gate g | Err _ => [] end.
Proof.
  intros Hca.
  destruct (connect_attempt_event _ _ _ _ _ Hca)
    as [(-> & -> & _) | (ev & -> & Hev & _)].
  - repeat split.
  - cbn. unfold connects. cbn. rewrite Hev.
    destruct ev; try discriminate; cbn; (split; [reflexivity|]);
      (split; [reflexivity|]); destruct r; rewrite ?app_nil_r; reflexivity.
Qed.

(** The disconnects of a call: the gate of an entry caught in the middle
    of a state change, or a stale gate, and nothing else. *)
Lemma path_disconnected user rd w new e' r :
  GetConnection_path user rd w new e' r ->
  disconnected new
  = (if mid_change (looked_up (mkKey (umid user) rd) w)
        || stale (looked_up (mkKey (umid user) rd) w)
     then [gate (looked_up (mkKey (umid user) rd) w)] else []).
Proof.
  intros Hp.
  destruct Hp as [Hmid | Hmid Hst Hc | Hmid Habs Hs
                 | name opts oev err Hmid Habs Hs Hca
                 | name opts oev g Hmid Habs Hs Hca];
    cbn [disconnected]; rewrite ?disconnected_app;
    try (destruct (connect_attempt_quiet _ _ _ _ _ Hca) as (-> & _ & _));
    rewrite ?(proj1 (first_use_events_quiet w)),
      ?(proj1 (teardown_events_quiet _)), ?app_nil_r, Hmid, ?Hst;
    reflexivity.
Qed.

(** The connect requests of a call: at most one, and its answer is what
    the call returns. *)
Lemma path_connects user rd w new e' r :
  GetConnection_path user rd w new e' r ->
  connects new = [] \/ connects new = [r].
Proof.
  intros Hp.
  destruct Hp as [Hmid | Hmid Hst Hc | Hmid Habs Hs
                 | name opts oev err Hmid Habs Hs Hca
                 | name opts oev g Hmid Habs Hs Hca];
    try change (connects (?ev :: ?l)) with (connects l);
    rewrite ?connects_app;
    try (destruct (connect_attempt_quiet _ _ _ _ _ Hca) as (_ & -> & _));
    rewrite ?(proj1 (proj2 (first_use_events_quiet w))),
      ?(proj1 (proj2 (teardown_events_quiet _))), ?app_nil_r;
    try (left; reflexivity); destruct oev; auto.
Qed.

(** ** The transaction callbacks *)

(** C1 (as the code has it): the transaction and subtransaction
    callbacks are empty.  Delivering any sequence of boundary events
    returns normally and leaves the whole state as it was: no entry's
    transaction depth changes and nothing is sent to a remote session. *)
Theorem boundary_events_change_nothing (bs : list Boundary) (w : World) :
  deliver_all bs w = (w, Ok tt).
Proof.
  induction bs as [|b bs IH]; [reflexivity|].
  cbn [deliver_all].
  assert (Hb : deliver b w = (w, Ok tt)) by (destruct b; reflexivity).
  rewrite (bind_Ok _ _ _ _ _ Hb). exact IH.
Qed.

(** ** The sanity check *)

(** C2 (as the code has it): an entry with no gate, or not in the middle
    of a state change, passes the check and nothing happens.  Otherwise
    the check disconnects the gate, sets it absent and leaves with an
    error, without opening anything; the error is the connection
    exception that names the server when the entry's user mapping and its
    server are found in the catalog, and a lookup failure for the user
    mapping when the mapping is gone. *)
Theorem reject_incomplete_xact_state_change_spec
    (key : ConnCacheKey) (e : ConnCacheEntry) (w : World) :
  (conn (gate e) = NULL \/ changing_xact_state e = false ->
   pgfdw_reject_incomplete_xact_state_change key e w = (w, Ok tt))
  /\
  (conn (gate e) <> NULL -> changing_xact_state e = true ->
   exists w' err,
     pgfdw_reject_incomplete_xact_state_change key e w = (w', Err err)
     /\ trace w' = EvDisconnect (gate e) :: trace w
     /\ entries w' !! key = Some (set_conn NULL e)
     /\ (forall k, k <> key -> entries w' !! k = entries w !! k)
     /\ (forall umserver name opts,
           pg_user_mapping w !! userid key = Some umserver ->
           pg_foreign_server w !! umserver = Some (name, opts) ->
           err = connection_lost_error name)
     /\ (pg_user_mapping w !! userid key = None ->
         err = mapping_lookup_error (userid key))).
Proof.
  split.
  - intros Hpass. apply reject_pass. unfold mid_change.
    destruct Hpass as [Hc | Hc]; rewrite Hc;
      [reflexivity | apply andb_false_r].
  - intros Hconn Hch.
    assert (Hmid : mid_change e = true).
    { unfold mid_change. rewrite Hch.
      destruct (N.eqb_spec (conn (gate e)) NULL); [contradiction | reflexivity]. }
    eexists _, _. split; [apply reject_fail, Hmid|].
    split; [reflexivity|].
    split; [apply lookup_insert_eq|].
    split.
    { intros k Hne.
      change (<[key := set_conn NULL e]> (entries w) !! k = entries w !! k).
      apply lookup_insert_ne. congruence. }
    unfold reject_error. split.
    + intros umserver name opts -> ->. reflexivity.
    + intros ->. reflexivity.
Qed.

(** ** The invalidation callback *)

Lemma pgfdw_inval_callback_eq arg cacheid hashvalue w :
  pgfdw_inval_callback arg cacheid hashvalue w
  = (match ConnectionHash w with
     | Some m => put_table (inval_entry cacheid hashvalue <$> m) w
     | None => w
     end, Ok tt).
Proof.
  unfold pgfdw_inval_callback, mbind, M_bind, get_world.
  destruct (ConnectionHash w); reflexivity.
Qed.

Lemma inval_entry_cases cacheid hashvalue e :
  (conn (gate e) = NULL -> inval_entry cacheid hashvalue e = e)
  /\ (conn (gate e) <> NULL ->
      (hashvalue = 0%N
       \/ (cacheid = FOREIGNSERVEROID /\ server_hashvalue e = hashvalue)
       \/ (cacheid = USERMAPPINGOID /\ mapping_hashvalue e = hashvalue) ->
       inval_entry cacheid hashvalue e = set_invalidated true e)
      /\ (~ (hashvalue = 0%N
             \/ (cacheid = FOREIGNSERVEROID /\ server_hashvalue e = hashvalue)
             \/ (cacheid = USERMAPPINGOID /\ mapping_hashvalue e = hashvalue)) ->
          inval_entry cacheid hashvalue e = e)).
Proof.
  unfold inval_entry. split.
  - intros ->. reflexivity.
  - intros Hc. destruct (N.eqb_spec (conn (gate e)) NULL); [contradiction|].
    destruct (N.eqb_spec hashvalue 0);
      destruct (N.eqb_spec (server_hashvalue e) hashvalue);
      destruct (N.eqb_spec (mapping_hashvalue e) hashvalue);
      destruct cacheid; cbn; split; intros Hm; try reflexivity;
      try (exfalso; apply Hm; auto; fail);
      destruct Hm as [? | [[? ?] | [? ?]]]; congruence.
Qed.

(** C3: a notification never marks an entry whose gate is absent, and it
    marks an entry whose gate is present exactly when the fingerprint is
    0, or the category is the server's and the stored server fingerprint
    equals it, or the category is the user mapping's and the stored
    mapping fingerprint equals it. *)
Theorem inval_callback_marks_matching_entries
    (w : World) (m : gmap ConnCacheKey ConnCacheEntry)
    (arg : N) (cacheid : SysCacheIdentifier) (hashvalue : N) :
  ConnectionHash w = Some m ->
  exists w',
    pgfdw_inval_callback arg cacheid hashvalue w = (w', Ok tt)
    /\ forall key e, m !! key = Some e ->
       exists e',
         entries w' !! key = Some e'
         /\ (conn (gate e) = NULL -> e' = e)
         /\ (conn (gate e) <> NULL ->
             (hashvalue = 0%N
              \/ (cacheid = FOREIGNSERVEROID /\ server_hashvalue e = hashvalue)
              \/ (cacheid = USERMAPPINGOID /\ mapping_hashvalue e = hashvalue) ->
              e' = set_invalidated true e)
             /\ (~ (hashvalue = 0%N
                    \/ (cacheid = FOREIGNSERVEROID
                        /\ server_hashvalue e = hashvalue)
                    \/ (cacheid = USERMAPPINGOID
                        /\ mapping_hashvalue e = hashvalue)) ->
                 e' = e)).
Proof.
  intros Hm. eexists. split.
  - rewrite pgfdw_inval_callback_eq, Hm. reflexivity.
  - intros key e He. exists (inval_entry cacheid hashvalue e). split.
    + change ((inval_entry cacheid hashvalue <$> m) !! key
              = Some (inval_entry cacheid hashvalue e)).
      rewrite lookup_fmap, He. reflexivity.
    + apply inval_entry_cases.
Qed.

Lemma inval_entry_frame cacheid hashvalue e :
  inval_entry cacheid hashvalue e = e
  \/ inval_entry cacheid hashvalue e = set_invalidated true e.
Proof.
  unfold inval_entry.
  destruct (conn (gate e) =? NULL)%N; [left; reflexivity|].
  match goal with |- context [if ?b then _ else _] => destruct b end;
    [right | left]; reflexivity.
Qed.

(** C9: the callback returns normally and writes nothing but the
    [invalidated] flag, which it only ever sets to true: the trace (so no
    gate is disconnected), the catalog, the set of entries and every
    other field of every entry, the gate among them, are as before. *)
Theorem inval_callback_only_sets_invalidated
    (w : World) (arg : N) (cacheid : SysCacheIdentifier) (hashvalue : N) :
  exists w',
    pgfdw_inval_callback arg cacheid hashvalue w = (w', Ok tt)
    /\ trace w' = trace w
    /\ xact_got_connection w' = xact_got_connection w
    /\ pg_foreign_server w' = pg_foreign_server w
    /\ pg_user_mapping w' = pg_user_mapping w
    /\ (forall key, entries w !! key = None -> entries w' !! key = None)
    /\ (forall key e, entries w !! key = Some e ->
        exists e',
          entries w' !! key = Some e'
          /\ (e' = e \/ e' = set_invalidated true e)
          /\ gate e' = gate e
          /\ xact_depth e' = xact_depth e
          /\ have_error e' = have_error e
          /\ changing_xact_state e' = changing_xact_state e
          /\ entry_read e' = entry_read e
          /\ server_hashvalue e' = server_hashvalue e
          /\ mapping_hashvalue e' = mapping_hashvalue e
          /\ (invalidated e = true -> invalidated e' = true)).
Proof.
  eexists. split; [apply pgfdw_inval_callback_eq|].
  destruct w as [[m|] f fs um tr]; cbn [ConnectionHash].
  - do 4 (split; [reflexivity|]). split.
    + intros key Hk.
      change ((inval_entry cacheid hashvalue <$> m) !! key = None).
      change (m !! key = None) in Hk. rewrite lookup_fmap, Hk. reflexivity.
    + intros key e He. exists (inval_entry cacheid hashvalue e).
      change (m !! key = Some e) in He. split.
      { change ((inval_entry cacheid hashvalue <$> m) !! key
                = Some (inval_entry cacheid hashvalue e)).
        rewrite lookup_fmap, He. reflexivity. }
      split; [apply inval_entry_frame|].
      destruct (inval_entry_frame cacheid hashvalue e) as [-> | ->];
        do 7 (split; [reflexivity|]); cbn; auto.
  - do 4 (split; [reflexivity|]). split.
    + intros key Hk. exact Hk.
    + intros key e He. exists e. split; [exact He|].
      split; [left; reflexivity|]. do 7 (split; [reflexivity|]). auto.
Qed.

(** ** The connection settings *)

Lemma field_value_apply_option f s def :
  field_value f (apply_option s def)
  = if bool_decide (option_field (defname def) = Some f)
    then denote f (defvalue def) else field_value f s.
Proof.
  destruct s as [driver d]. unfold apply_option.
  destruct (option_field (defname def)) as [g|].
  - destruct g, f; reflexivity.
  - reflexivity.
Qed.

Lemma field_value_extract f defelems s :
  field_value f (ExtractConnectionOptions defelems s)
  = match setting f defelems with
    | Some v => denote f v
    | None => field_value f s
    end.
Proof.
  unfold ExtractConnectionOptions. revert s.
  induction defelems as [|def rest IH]; intros s; [reflexivity|].
  cbn [fold_left setting]. rewrite IH.
  destruct (setting f rest); [reflexivity|].
  rewrite field_value_apply_option.
  destruct (bool_decide _); reflexivity.
Qed.

(** C6: the settings are the defaults overwritten by the server's options
    and then by the user mapping's.  A setting the user mapping names has
    the user mapping's value, whatever the server says; one that only
    the server names has the server's; one that neither names has its
    default, and the defaults are host 127.0.0.1, port 8123, database
    default, driver http, no user name and no password. *)
Theorem resolve_user_overrides_server
    (server : ForeignServer) (user : UserMapping) (f : Field) :
  (forall v, setting f (um_options user) = Some v ->
     field_value f (resolve server user) = denote f v)
  /\ (forall v, setting f (um_options user) = None ->
        setting f (options server) = Some v ->
        field_value f (resolve server user) = denote f v)
  /\ (setting f (um_options user) = None ->
      setting f (options server) = None ->
      field_value f (resolve server user) = field_value f default_settings)
  /\ field_value F_host default_settings = VString "127.0.0.1"
  /\ field_value F_port default_settings = VInt 8123
  /\ field_value F_dbname default_settings = VString "default"
  /\ field_value F_driver default_settings = VString "http"
  /\ field_value F_username default_settings = VAbsent
  /\ field_value F_password default_settings = VAbsent.
Proof.
  unfold resolve. rewrite !field_value_extract.
  split; [intros v ->; reflexivity|].
  split; [intros v -> ->; reflexivity|].
  split; [intros -> ->; reflexivity|].
  repeat split.
Qed.

Lemma finds_no_gate_looked_up key w :
  finds_no_gate key w ->
  conn (gate (looked_up key w)) = NULL
  \/ (mid_change (looked_up key w) = false /\ stale (looked_up key w) = true).
Proof.
  unfold finds_no_gate, looked_up.
  destruct (entries w !! key) as [e|]; cbn.
  - intros [Hc | (Hch & Hi & Hd)]; [left; exact Hc|].
    destruct (N.eqb_spec (conn (gate e)) NULL) as [Hc | Hc];
      [left; exact Hc|].
    right. split.
    + apply mid_change_false_iff. right. exact Hch.
    + apply stale_true_iff. auto.
  - left. reflexivity.
Qed.

(** ** Closing a stale gate *)

Lemma run_entry key e' m f fs um tr :
  entries (mkWorld (Some (<[key := e']> m)) f fs um tr) !! key = Some e'.
Proof. apply lookup_insert_eq. Qed.

Lemma run_other key k e' m f fs um tr :
  k <> key ->
  entries (mkWorld (Some (<[key := e']> m)) f fs um tr) !! k = m !! k.
Proof. intros Hne. apply lookup_insert_ne. congruence. Qed.

(** C4 (as the code has it): for an entry that passes the sanity check
    (no gate, or not in the middle of a state change), [GetConnection]
    disconnects the gate exactly when the gate is present, the entry is
    invalidated and its transaction depth is 0; the entry then holds no
    gate or a newly opened one.  In every other case nothing is
    disconnected, and an entry with a gate is returned as it is, so a
    stale gate stays connected while the depth is above 0. *)
Theorem stale_gate_closed_only_out_of_transaction
    (user : UserMapping) (wps rd : bool) (w : World) (e : ConnCacheEntry) :
  entries w !! mkKey (umid user) rd = Some e ->
  conn (gate e) = NULL \/ changing_xact_state e = false ->
  exists w' r new,
    GetConnection user wps rd w = (w', r)
    /\ trace w' = new ++ trace w
    /\ (conn (gate e) <> NULL /\ invalidated e = true /\ xact_depth e = 0%Z ->
        disconnected new = [gate e]
        /\ exists e', entries w' !! mkKey (umid user) rd = Some e'
             /\ (conn (gate e') = NULL \/ In (Ok (gate e')) (connects new)))
    /\ (~ (conn (gate e) <> NULL /\ invalidated e = true /\ xact_depth e = 0%Z) ->
        disconnected new = []
        /\ (conn (gate e) <> NULL ->
            new = [] /\ r = Ok (gate e)
            /\ entries w' !! mkKey (umid user) rd = Some e)).
Proof.
  intros He Hpass.
  destruct (GetConnection_run user wps rd w) as (new & e' & r & Hp & Heq).
  eexists _, r, new. split; [exact Heq|]. split; [reflexivity|].
  apply mid_change_false_iff in Hpass.
  rewrite <- stale_true_iff, run_entry.
  rewrite (path_disconnected _ _ _ _ _ _ Hp).
  pose proof (path_connects _ _ _ _ _ _ Hp) as Hcs.
  rewrite (looked_up_found _ _ _ He) in *. rewrite Hpass. cbn [orb].
  split.
  - intros Hst. rewrite Hst. split; [reflexivity|]. exists e'.
    split; [reflexivity|].
    destruct Hp as [Hmid | Hmid Hst' Hc | Hmid Habs Hs
                   | name opts oev err Hmid Habs Hs Hca
                   | name opts oev g Hmid Habs Hs Hca];
      rewrite ?(looked_up_found _ _ _ He) in *; try congruence;
      try (left; reflexivity).
    destruct (N.eqb_spec (conn g) NULL) as [Hg | Hg]; [left; exact Hg|].
    right. cbn [set_gate gate].
    destruct (connect_attempt_event _ _ _ _ _ Hca)
      as [(_ & [=] & _) | (ev & -> & Hev & _)].
    change (connects (?x :: ?l)) with (connects l).
    rewrite connects_app. apply in_or_app. left.
    unfold connects. cbn. rewrite Hev. left. reflexivity.
  - intros Hst. destruct (stale e) eqn:Est; [contradiction Hst; reflexivity|].
    split; [reflexivity|]. intros Hc.
    destruct Hp as [Hmid | Hmid Hst' Hc' | Hmid [Habs|Habs] Hs
                   | name opts oev err Hmid [Habs|Habs] Hs Hca
                   | name opts oev g Hmid [Habs|Habs] Hs Hca];
      rewrite ?(looked_up_found _ _ _ He) in *; try congruence.
    repeat split.
Qed.

(** ** Resetting the entry before the connect *)

(** C10: when [GetConnection] finds no gate in the entry (the entry is
    new, or its gate is absent, or its stale gate has just been closed),
    what it does to the entry depends on the server lookup that comes
    first.  If the server of the user mapping is in the catalog, the
    entry ends with depth 0, no error, no state change in progress, not
    invalidated, and with the fingerprints of the server and of the user
    mapping; this holds whether the connect that follows succeeds or
    fails, and after a failure the entry has no gate.  If the server is
    not in the catalog, the call leaves with the lookup error and the
    entry is the one that was found, without a gate: nothing is reset. *)
Theorem acquire_resets_entry_before_connect
    (user : UserMapping) (wps rd : bool) (w : World) :
  finds_no_gate (mkKey (umid user) rd) w ->
  exists w' r e',
    GetConnection user wps rd w = (w', r)
    /\ entries w' !! mkKey (umid user) rd = Some e'
    /\ match pg_foreign_server w !! um_serverid user with
       | Some _ =>
           xact_depth e' = 0%Z
           /\ have_error e' = false
           /\ changing_xact_state e' = false
           /\ invalidated e' = false
           /\ entry_read e' = rd
           /\ server_hashvalue e'
              = GetSysCacheHashValue1 FOREIGNSERVEROID (um_serverid user)
           /\ mapping_hashvalue e'
              = GetSysCacheHashValue1 USERMAPPINGOID (umid user)
           /\ match r with
              | Ok g => gate e' = g
              | Err _ => conn (gate e') = NULL
              end
       | None =>
           r = Err (server_lookup_error (um_serverid user))
           /\ e' = set_conn NULL (looked_up (mkKey (umid user) rd) w)
       end.
Proof.
  intros Habs.
  destruct (GetConnection_run user wps rd w) as (new & e' & r & Hp & Heq).
  eexists _, r, e'. split; [exact Heq|]. split; [apply run_entry|].
  pose proof (finds_no_gate_looked_up _ _ Habs) as Hl.
  destruct Hp as [Hmid | Hmid Hst' Hc' | Hmid Habs' Hs'
                 | name' opts' oev err Hmid Habs' Hs' Hca
                 | name' opts' oev g Hmid Habs' Hs' Hca].
  - apply mid_change_true_iff in Hmid. destruct Hmid as [Hc Hch].
    destruct Hl as [Hc' | [Hm _]]; [contradiction|].
    apply mid_change_false_iff in Hm. destruct Hm; congruence.
  - destruct Hl as [Hc | [_ Hst]]; congruence.
  - rewrite Hs'. split; reflexivity.
  - rewrite Hs'. repeat split.
  - rewrite Hs'. repeat split.
Qed.

(** ** An unknown driver *)

(** C8 (as the code has it): when [GetConnection] has to open a
    connection and the driver of the resolved settings is neither http
    nor binary, it leaves with the invalid-driver error and calls no
    transport.  The catalog and the other entries are untouched; the
    entry of the call is left without a gate, with its transient fields
    reset and the fingerprints recorded. *)
Theorem unknown_driver_fails_after_reset
    (user : UserMapping) (wps rd : bool) (w : World)
    (name : string) (opts : list DefElem) :
  finds_no_gate (mkKey (umid user) rd) w ->
  pg_foreign_server w !! um_serverid user = Some (name, opts) ->
  (resolve (mkForeignServer (um_serverid user) name opts) user).1
    <> "http"%string ->
  (resolve (mkForeignServer (um_serverid user) name opts) user).1
    <> "binary"%string ->
  exists w' new,
    GetConnection user wps rd w = (w', Err invalid_driver_error)
    /\ trace w' = new ++ trace w
    /\ connects new = []
    /\ pg_foreign_server w' = pg_foreign_server w
    /\ pg_user_mapping w' = pg_user_mapping w
    /\ (forall k, k <> mkKey (umid user) rd -> entries w' !! k = entries w !! k)
    /\ entries w' !! mkKey (umid user) rd
       = Some (reset_entry user rd (mkForeignServer (um_serverid user) name opts)
                 (set_conn NULL (looked_up (mkKey (umid user) rd) w))).
Proof.
  intros Habs Hs Hhttp Hbin.
  destruct (GetConnection_run user wps rd w) as (new & e' & r & Hp & Heq).
  pose proof (finds_no_gate_looked_up _ _ Habs) as Hl.
  pose proof (path_connects _ _ _ _ _ _ Hp) as Hcs.
  destruct Hp as [Hmid | Hmid Hst' Hc' | Hmid Habs' Hs'
                 | name' opts' oev err Hmid Habs' Hs' Hca
                 | name' opts' oev g Hmid Habs' Hs' Hca].
  - apply mid_change_true_iff in Hmid. destruct Hmid as [Hc Hch].
    destruct Hl as [Hc' | [Hm _]]; [contradiction|].
    apply mid_change_false_iff in Hm. destruct Hm; congruence.
  - destruct Hl as [Hc | [_ Hst]]; congruence.
  - congruence.
  - rewrite Hs in Hs'. injection Hs' as <- <-.
    destruct (connect_attempt_event _ _ _ _ _ Hca)
      as [(-> & [= ->] & _) | (ev & _ & _ & [Hd | Hd])]; try contradiction.
    eexists _, _. split; [exact Heq|]. split; [reflexivity|].
    split.
    { rewrite !connects_app,
        (proj1 (proj2 (first_use_events_quiet w))),
        (proj1 (proj2 (teardown_events_quiet _))). reflexivity. }
    split; [reflexivity|]. split; [reflexivity|].
    split; [intros k Hne; apply run_other, Hne | apply run_entry].
  - rewrite Hs in Hs'. injection Hs' as <- <-.
    destruct (connect_attempt_event _ _ _ _ _ Hca)
      as [(_ & [=] & _) | (ev & _ & _ & [Hd | Hd])]; contradiction.
Qed.

(** ** A failed connect *)

Lemma failed_open_in_connects ev err l :
  failed_open ev = Some err -> In ev l -> In (Err err) (connects l).
Proof.
  unfold failed_open. intros Hf Hin.
  destruct (connect_outcome ev) as [[g|e]|] eqn:Hev; try discriminate.
  injection Hf as ->.
  apply list_elem_of_In. unfold connects. apply list_elem_of_omap.
  exists ev. split; [apply list_elem_of_In, Hin | exact Hev].
Qed.

(** [GetConnection] on an entry without a gate, when the server is in
    the catalog: it goes straight to the connect, and what the connect
    answers is what the call returns. *)
Lemma GetConnection_without_gate user wps rd w e name opts :
  entries w !! mkKey (umid user) rd = Some e ->
  conn (gate e) = NULL ->
  pg_foreign_server w !! um_serverid user = Some (name, opts) ->
  exists w' e',
    GetConnection user wps rd w
    = (w', (connect_attempt (mkForeignServer (um_serverid user) name opts)
              user (trace w)).2)
    /\ entries w' !! mkKey (umid user) rd = Some e'
    /\ match (connect_attempt (mkForeignServer (um_serverid user) name opts)
                user (trace w)).2 with
       | Ok g => gate e' = g
       | Err _ => conn (gate e') = NULL
       end.
Proof.
  intros He Hc Hs.
  destruct (GetConnection_run user wps rd w) as (new & e' & r & Hp & Heq).
  exists (mkWorld (Some (<[mkKey (umid user) rd := e']> (entries w))) true
            (pg_foreign_server w) (pg_user_mapping w) (new ++ trace w)), e'.
  assert (Hst : stale e = false).
  { unfold stale. rewrite Hc. reflexivity. }
  assert (Htr : teardown_events e ++ first_use_events w ++ trace w = trace w).
  { unfold teardown_events. rewrite Hst, (first_use_events_found _ _ _ He).
    reflexivity. }
  destruct Hp as [Hmid | Hmid Hst' Hc' | Hmid Habs' Hs'
                 | name' opts' oev err Hmid Habs' Hs' Hca
                 | name' opts' oev g Hmid Habs' Hs' Hca];
    rewrite ?(looked_up_found _ _ _ He) in *.
  - apply mid_change_true_iff in Hmid. destruct Hmid; contradiction.
  - contradiction.
  - congruence.
  - rewrite Hs in Hs'. injection Hs' as <- <-.
    rewrite Htr in Hca. rewrite Hca. cbn [snd].
    split; [exact Heq|]. split; [apply run_entry | reflexivity].
  - rewrite Hs in Hs'. injection Hs' as <- <-.
    rewrite Htr in Hca. rewrite Hca. cbn [snd].
    split; [exact Heq|]. split; [apply run_entry | reflexivity].
Qed.

(** C7: when a transport's open fails during [GetConnection], the call
    leaves with that very error and the entry stays in the table
    without a gate; a later call for the same key then goes to the
    connect again, and returns the gate when the connect succeeds. *)
Theorem connect_failure_leaves_entry_without_gate
    (user : UserMapping) (wps rd : bool) (w w1 : World)
    (r : result ch_connection) (new : list Event) (ev : Event) (err : PgError) :
  GetConnection user wps rd w = (w1, r) ->
  trace w1 = new ++ trace w ->
  In ev new ->
  failed_open ev = Some err ->
  r = Err err
  /\ (exists e1, entries w1 !! mkKey (umid user) rd = Some e1
                 /\ conn (gate e1) = NULL)
  /\ (forall user' wps' name opts g,
        umid user' = umid user ->
        pg_foreign_server w1 !! um_serverid user' = Some (name, opts) ->
        (clickhouse_connect (mkForeignServer (um_serverid user') name opts)
           user' w1).2 = Ok g ->
        exists w2,
          GetConnection user' wps' rd w1 = (w2, Ok g)
          /\ gate <$> entries w2 !! mkKey (umid user) rd = Some g).
Proof.
  intros Hrun Htr Hin Hfail.
  destruct (GetConnection_run user wps rd w) as (new0 & e' & r0 & Hp & Heq).
  rewrite Heq in Hrun. injection Hrun as Hw1 <-.
  assert (He1 : entries w1 !! mkKey (umid user) rd = Some e').
  { rewrite <- Hw1. apply run_entry. }
  rewrite <- Hw1 in Htr. cbn [trace] in Htr. apply app_inv_tail in Htr.
  subst new0. clear Hw1 Heq.
  pose proof (failed_open_in_connects _ _ _ Hfail Hin) as Hc.
  assert (Hr : r0 = Err err).
  { destruct (path_connects _ _ _ _ _ _ Hp) as [E | E]; rewrite E in Hc.
    - destruct Hc.
    - destruct Hc as [Hc | []]. exact Hc. }
  assert (He' : conn (gate e') = NULL).
  { destruct Hp; try reflexivity; discriminate. }
  split; [exact Hr|]. split.
  { exists e'. split; [exact He1 | exact He']. }
  intros user' wps' name opts g Hum Hs Hopen.
  rewrite clickhouse_connect_eq in Hopen. cbn [snd] in Hopen.
  rewrite <- Hum in *.
  destruct (GetConnection_without_gate user' wps' rd w1 e' name opts He1 He' Hs)
    as (w2 & e2 & Hrun2 & He2 & Hg).
  rewrite Hopen in Hrun2, Hg.
  exists w2. split; [exact Hrun2|]. rewrite He2. cbn. rewrite Hg. reflexivity.
Qed.

(** ** Cache hits *)

(** A call that finds a usable gate changes nothing. *)
Lemma GetConnection_hit user wps rd w m e :
  ConnectionHash w = Some m ->
  xact_got_connection w = true ->
  m !! mkKey (umid user) rd = Some e ->
  mid_change e = false -> stale e = false -> conn (gate e) <> NULL ->
  GetConnection user wps rd w = (w, Ok (gate e)).
Proof.
  intros Hm Hf He Hmid Hst Hc.
  assert (He' : entries w !! mkKey (umid user) rd = Some e).
  { unfold entries. rewrite Hm. exact He. }
  destruct (GetConnection_run user wps rd w) as (new & e' & r & Hp & Heq).
  rewrite Heq.
  destruct Hp as [Hmid' | Hmid' Hst' Hc' | Hmid' [Habs|Habs] Hs
                 | name opts oev err Hmid' [Habs|Habs] Hs Hca
                 | name opts oev g Hmid' [Habs|Habs] Hs Hca];
    rewrite ?(looked_up_found _ _ _ He') in *; try congruence.
  destruct w as [tbl f fs um tr]. cbn in *. subst tbl f.
  cbn. rewrite (insert_id _ _ _ He). reflexivity.
Qed.

(** After a call that returned a gate, the entry holds that gate and is
    usable as it is. *)
Lemma GetConnection_Ok_inv user wps rd w w1 g :
  GetConnection user wps rd w = (w1, Ok g) ->
  conn g <> NULL ->
  exists m1 e1,
    ConnectionHash w1 = Some m1 /\ xact_got_connection w1 = true
    /\ m1 !! mkKey (umid user) rd = Some e1 /\ gate e1 = g
    /\ mid_change e1 = false /\ stale e1 = false.
Proof.
  intros Hrun Hg.
  destruct (GetConnection_run user wps rd w) as (new & e' & r & Hp & Heq).
  rewrite Heq in Hrun. injection Hrun as <- Hr.
  eexists _, e'. split; [reflexivity|]. split; [reflexivity|].
  split; [apply lookup_insert_eq|].
  destruct Hp as [Hmid' | Hmid' Hst' Hc' | Hmid' Habs Hs
                 | name opts oev err Hmid' Habs Hs Hca
                 | name opts oev g' Hmid' Habs Hs Hca]; try discriminate.
  - injection Hr as <-. auto.
  - injection Hr as <-. repeat split.
    + unfold mid_change. cbn. apply andb_false_r.
    + unfold stale. cbn. destruct (negb _); reflexivity.
Qed.

Lemma acquire_all_hits user rd w m e calls :
  ConnectionHash w = Some m ->
  xact_got_connection w = true ->
  m !! mkKey (umid user) rd = Some e ->
  mid_change e = false -> stale e = false -> conn (gate e) <> NULL ->
  Forall (fun c => umid c.1 = umid user) calls ->
  acquire_all rd calls w = (w, (fun _ => Ok (gate e)) <$> calls).
Proof.
  intros Hm Hf He Hmid Hst Hc Hall.
  induction Hall as [|[user' wps'] calls Hum _ IH]; [reflexivity|].
  cbn [acquire_all]. cbn in Hum.
  rewrite (GetConnection_hit user' wps' rd w m e); try assumption.
  - rewrite IH. reflexivity.
  - rewrite Hum. exact He.
Qed.

(** ** The gates that are open *)

Lemma held_insert m key e :
  held (<[key := e]> m) ≡ₚ live_gate (gate e) ++ held (delete key m).
Proof.
  rewrite <- insert_delete_eq. unfold held.
  rewrite (map_to_list_insert (delete key m) key e (lookup_delete_eq m key)).
  reflexivity.
Qed.

Lemma held_looked_up key w :
  held (entries w)
  ≡ₚ live_gate (gate (looked_up key w)) ++ held (delete key (entries w)).
Proof.
  unfold looked_up. destruct (entries w !! key) as [e|] eqn:He; cbn [default].
  - unfold held. rewrite <- (map_to_list_delete _ _ _ He). reflexivity.
  - rewrite (delete_id _ _ He). reflexivity.
Qed.

Lemma held_fmap (f : ConnCacheEntry -> ConnCacheEntry) m :
  (forall e, gate (f e) = gate e) -> held (f <$> m) = held m.
Proof.
  intros Hf. unfold held. rewrite map_to_list_fmap, list_fmap_bind.
  apply list_bind_ext; [|reflexivity].
  intros [k e]. cbn. rewrite Hf. reflexivity.
Qed.

Lemma held_one_per_entry m : (length (held m) <= size m)%nat.
Proof.
  unfold held. rewrite <- length_map_to_list.
  induction (map_to_list m) as [|[k e] l IH]; [reflexivity|].
  rewrite bind_cons, length_app. cbn [length snd].
  unfold live_gate at 1.
  destruct (conn (gate e) =? NULL)%N; cbn [length Nat.add].
  - apply le_S, IH.
  - apply le_n_S, IH.
Qed.

(** What a call opens, together with the gate it found, is what it
    leaves in the entry, together with what it disconnects. *)
Lemma path_balance user rd w new e' r :
  GetConnection_path user rd w new e' r ->
  opened new ++ live_gate (gate (looked_up (mkKey (umid user) rd) w))
  ≡ₚ live_gate (gate e') ++ disconnected new.
Proof.
  intros Hp. rewrite (path_disconnected _ _ _ _ _ _ Hp).
  assert (Hlive : forall e, (stale e = true \/ conn (gate e) = NULL) ->
            live_gate (gate e) = (if stale e then [gate e] else [])).
  { intros e [Hst | Hc].
    - rewrite Hst. unfold live_gate. rewrite (stale_present _ Hst). reflexivity.
    - unfold live_gate, stale. rewrite Hc. reflexivity. }
  destruct Hp as [Hmid | Hmid Hst Hc | Hmid Habs Hs
                 | name opts oev err Hmid Habs Hs Hca
                 | name opts oev g Hmid Habs Hs Hca];
    rewrite Hmid; cbn [orb opened connect_outcome];
    rewrite ?opened_app;
    try (destruct (connect_attempt_quiet _ _ _ _ _ Hca) as (_ & _ & ->));
    rewrite ?(proj2 (proj2 (first_use_events_quiet w))),
      ?(proj2 (proj2 (teardown_events_quiet _))), ?app_nil_r;
    cbn [app set_gate reset_entry set_conn gate].
  - apply mid_change_true_iff in Hmid. destruct Hmid as [Hc _].
    unfold live_gate at 1. apply N.eqb_neq in Hc. rewrite Hc. reflexivity.
  - rewrite Hst, app_nil_r. reflexivity.
  - rewrite (Hlive _ Habs). reflexivity.
  - rewrite (Hlive _ Habs). reflexivity.
  - rewrite (Hlive _ Habs). reflexivity.
Qed.

Lemma GetConnection_balanced user wps rd w :
  balanced w -> balanced (GetConnection user wps rd w).1.
Proof.
  unfold balanced. intros Hb.
  destruct (GetConnection_run user wps rd w) as (new & e' & r & Hp & Heq).
  rewrite Heq. cbn [fst trace]. change (entries (mkWorld (Some ?m) _ _ _ _)) with m.
  rewrite opened_app, disconnected_app, Hb, held_insert.
  rewrite (held_looked_up (mkKey (umid user) rd) w).
  rewrite !app_assoc. apply Permutation_app_tail.
  rewrite (path_balance _ _ _ _ _ _ Hp).
  rewrite <- !app_assoc. apply Permutation_app_head. apply Permutation_app_comm.
Qed.

Lemma reachable_balanced w : reachable w -> balanced w.
Proof.
  induction 1 as [fs um | w user wps rd _ IH | w arg cacheid hv _ IH
                 | w b _ IH | w fs um _ IH].
  - unfold balanced, held. cbn. rewrite map_to_list_empty. reflexivity.
  - apply GetConnection_balanced, IH.
  - rewrite pgfdw_inval_callback_eq. cbn [fst]. unfold balanced in *.
    destruct w as [[m|] f fs um tr]; cbn [ConnectionHash]; [|exact IH].
    change (opened tr ≡ₚ held (inval_entry cacheid hv <$> m) ++ disconnected tr).
    rewrite held_fmap; [exact IH|].
    intros e. destruct (inval_entry_frame cacheid hv e) as [-> | ->]; reflexivity.
  - destruct b; exact IH.
  - exact IH.
Qed.

(** Hits of the table keyed by the two fields, which is the key as the
    source takes it to be ("Assume no pad bytes in key struct"): once
    [GetConnection] has returned a gate, every further call for the same
    fields, with no invalidation or transaction boundary in between,
    returns that same gate and leaves the whole state, the trace with
    it, unchanged.  And in every state the backend reaches, the gates
    that were opened and not disconnected since are exactly the gates
    the table holds, of which there is at most one per key.  For the key
    as [hash_search] compares it, see [Padded]. *)
Theorem cache_hit_returns_same_gate :
  (forall (user : UserMapping) (wps rd : bool) (w w1 : World)
          (g : ch_connection) (calls : list (UserMapping * bool)),
     GetConnection user wps rd w = (w1, Ok g) ->
     conn g <> NULL ->
     Forall (fun c => umid c.1 = umid user) calls ->
     acquire_all rd calls w1 = (w1, (fun _ => Ok g) <$> calls))
  /\ (forall w : World,
        reachable w ->
        opened (trace w) ≡ₚ held (entries w) ++ disconnected (trace w)
        /\ (length (held (entries w)) <= size (entries w))%nat).
Proof.
  split.
  - intros user wps rd w w1 g calls Hrun Hg Hall.
    destruct (GetConnection_Ok_inv _ _ _ _ _ _ Hrun Hg)
      as (m1 & e1 & Hm & Hf & He & <- & Hmid & Hst).
    apply (acquire_all_hits user rd w1 m1 e1 calls); assumption.
  - intros w Hw. split; [apply reachable_balanced, Hw|].
    apply held_one_per_entry.
Qed.

End Facts.

(** * Further properties of the file *)

Section MoreFacts.

Context `{!Externals}.

(** ** One call of [GetConnection] *)

(** X1: a call works on the entry of its own key only.  The entries of
    all other keys, the other intent of the same user mapping among
    them, and the catalog are as before, whatever the call returns. *)
Theorem GetConnection_leaves_other_keys
    (user : UserMapping) (wps rd : bool) (w : World) (k : ConnCacheKey) :
  k <> mkKey (umid user) rd ->
  entries (GetConnection user wps rd w).1 !! k = entries w !! k
  /\ pg_foreign_server (GetConnection user wps rd w).1 = pg_foreign_server w
  /\ pg_user_mapping (GetConnection user wps rd w).1 = pg_user_mapping w.
Proof.
  intros Hne.
  destruct (GetConnection_run user wps rd w) as (new & e' & r & _ & Heq).
  rewrite Heq. cbn [fst].
  split; [apply run_other, Hne | split; reflexivity].
Qed.

(** X2: after a call, failed or not, the table exists, the flag
    [xact_got_connection] is set, and the keys of the table are those it
    had before and the key of the call: entries are created and never
    removed. *)
Theorem GetConnection_never_evicts
    (user : UserMapping) (wps rd : bool) (w : World) :
  ConnectionHash (GetConnection user wps rd w).1
  = Some (entries (GetConnection user wps rd w).1)
  /\ xact_got_connection (GetConnection user wps rd w).1 = true
  /\ dom (entries (GetConnection user wps rd w).1)
     = {[ mkKey (umid user) rd ]} ∪ dom (entries w).
Proof.
  destruct (GetConnection_run user wps rd w) as (new & e' & r & _ & Heq).
  rewrite Heq. cbn [fst].
  split; [reflexivity | split; [reflexivity|]].
  change (entries (mkWorld (Some ?m) _ _ _ _)) with m.
  apply dom_insert_L.
Qed.

Lemma GetConnection_outcome user wps rd w w' r :
  GetConnection user wps rd w = (w', r) ->
  exists e',
    entries w' !! mkKey (umid user) rd = Some e'
    /\ match r with
       | Ok g => gate e' = g
       | Err _ => conn (gate e') = NULL
       end.
Proof.
  intros Hrun.
  destruct (GetConnection_run user wps rd w) as (new & e' & r0 & Hp & Heq).
  rewrite Heq in Hrun. injection Hrun as <- <-.
  exists e'. split; [apply run_entry|].
  destruct Hp; reflexivity.
Qed.

(** X3: what a call returns is what it leaves in the entry.  When it
    returns a gate, that gate is the entry's; when it fails, for
    whatever reason, the entry is there without a gate. *)
Theorem GetConnection_result_matches_entry
    (user : UserMapping) (wps rd : bool) (w w' : World)
    (r : result ch_connection) :
  GetConnection user wps rd w = (w', r) ->
  exists e',
    entries w' !! mkKey (umid user) rd = Some e'
    /\ match r with
       | Ok g => gate e' = g
       | Err _ => conn (gate e') = NULL
       end.
Proof. apply GetConnection_outcome. Qed.

(** [GetConnection] on an entry without a gate, when the server is in
    the catalog: the entry it leaves. *)
Lemma GetConnection_connects user wps rd w e name opts :
  entries w !! mkKey (umid user) rd = Some e ->
  conn (gate e) = NULL ->
  pg_foreign_server w !! um_serverid user = Some (name, opts) ->
  exists w',
    GetConnection user wps rd w
    = (w', (clickhouse_connect (mkForeignServer (um_serverid user) name opts)
              user w).2)
    /\ entries w' !! mkKey (umid user) rd
       = Some (match (clickhouse_connect
                        (mkForeignServer (um_serverid user) name opts)
                        user w).2 with
               | Ok g =>
                   set_gate g
                     (reset_entry user rd
                        (mkForeignServer (um_serverid user) name opts) e)
               | Err _ =>
                   reset_entry user rd
                     (mkForeignServer (um_serverid user) name opts) e
               end).
Proof.
  intros He Hc Hs. rewrite clickhouse_connect_eq. cbn [snd].
  destruct (GetConnection_run user wps rd w) as (new & e' & r & Hp & Heq).
  exists (GetConnection user wps rd w).1. rewrite Heq. cbn [fst].
  rewrite run_entry.
  assert (Hst : stale e = false).
  { unfold stale. rewrite Hc. reflexivity. }
  assert (Htr : teardown_events e ++ first_use_events w ++ trace w = trace w).
  { unfold teardown_events. rewrite Hst, (first_use_events_found _ _ _ He).
    reflexivity. }
  destruct Hp as [Hmid | Hmid Hst' Hc' | Hmid Habs' Hs'
                 | name' opts' oev err Hmid Habs' Hs' Hca
                 | name' opts' oev g Hmid Habs' Hs' Hca];
    rewrite ?(looked_up_found _ _ _ He) in *.
  - apply mid_change_true_iff in Hmid. destruct Hmid; contradiction.
  - contradiction.
  - congruence.
  - rewrite Hs in Hs'. injection Hs' as <- <-.
    rewrite Htr in Hca. rewrite Hca, (set_conn_NULL_id e Hc). cbn [snd].
    split; reflexivity.
  - rewrite Hs in Hs'. injection Hs' as <- <-.
    rewrite Htr in Hca. rewrite Hca, (set_conn_NULL_id e Hc). cbn [snd].
    split; reflexivity.
Qed.

(** X4: no failure is remembered.  After a call that failed, be it on the
    sanity check, on the server lookup or on the connect, a later call
    for the same key whose server is in the catalog goes to the connect
    and returns what the connect answers; when that is a gate, the
    entry holds it with depth 0 and with the flags for an error, for a
    state change in progress and for an invalidation cleared. *)
Theorem failed_acquire_is_retried
    (user user' : UserMapping) (wps wps' rd : bool) (w w1 : World)
    (err : PgError) (name : string) (opts : list DefElem) :
  GetConnection user wps rd w = (w1, Err err) ->
  umid user' = umid user ->
  pg_foreign_server w1 !! um_serverid user' = Some (name, opts) ->
  exists w2 e2,
    GetConnection user' wps' rd w1
    = (w2, (clickhouse_connect (mkForeignServer (um_serverid user') name opts)
              user' w1).2)
    /\ entries w2 !! mkKey (umid user) rd = Some e2
    /\ xact_depth e2 = 0%Z /\ have_error e2 = false
    /\ changing_xact_state e2 = false /\ invalidated e2 = false
    /\ match (clickhouse_connect
                (mkForeignServer (um_serverid user') name opts) user' w1).2 with
       | Ok g => gate e2 = g
       | Err _ => conn (gate e2) = NULL
       end.
Proof.
  intros Hrun Hum Hs.
  destruct (GetConnection_outcome _ _ _ _ _ _ Hrun) as (e1 & He1 & Hc1).
  rewrite <- Hum in *.
  destruct (GetConnection_connects user' wps' rd w1 e1 name opts He1 Hc1 Hs)
    as (w2 & Hrun2 & He2).
  eexists w2, _. split; [exact Hrun2|]. split; [exact He2|].
  destruct (clickhouse_connect _ user' w1).2 as [g|err'];
    repeat split; exact Hc1.
Qed.

(** X5: a call disconnects at most one gate and makes at most one connect
    request, and a disconnect comes before the connect.  What is
    disconnected is the gate the entry of the call held before. *)
Theorem GetConnection_disconnects_before_it_connects
    (user : UserMapping) (wps rd : bool) (w : World) :
  exists later earlier,
    trace (GetConnection user wps rd w).1 = later ++ earlier ++ trace w
    /\ disconnected later = []
    /\ connects earlier = []
    /\ (length (connects later) <= 1)%nat
    /\ (disconnected earlier = []
        \/ exists e,
             entries w !! mkKey (umid user) rd = Some e
             /\ conn (gate e) <> NULL
             /\ disconnected earlier = [gate e]).
Proof.
  destruct (GetConnection_run user wps rd w) as (new & e' & r & Hp & Heq).
  rewrite Heq. cbn [fst trace].
  assert (Hfound : forall b : bool,
            (if b then [gate (looked_up (mkKey (umid user) rd) w)] else [])
            = ([] : list ch_connection)
            \/ (b = true /\
                (conn (gate (looked_up (mkKey (umid user) rd) w)) <> NULL ->
                 exists e, entries w !! mkKey (umid user) rd = Some e
                           /\ looked_up (mkKey (umid user) rd) w = e))).
  { intros [|]; [right | left; reflexivity]. split; [reflexivity|].
    unfold looked_up.
    destruct (entries w !! mkKey (umid user) rd) as [e|]; cbn.
    - intros _. exists e. split; reflexivity.
    - intros Hc. contradiction Hc. reflexivity. }
  assert (Hearly : forall l,
            connects l = [] ->
            disconnected l
            = (if mid_change (looked_up (mkKey (umid user) rd) w)
                  || stale (looked_up (mkKey (umid user) rd) w)
               then [gate (looked_up (mkKey (umid user) rd) w)] else []) ->
            connects l = []
            /\ (disconnected l = []
                \/ exists e,
                     entries w !! mkKey (umid user) rd = Some e
                     /\ conn (gate e) <> NULL
                     /\ disconnected l = [gate e])).
  { intros l Hc Hd. split; [exact Hc|]. rewrite Hd.
    destruct (Hfound (mid_change (looked_up (mkKey (umid user) rd) w)
                      || stale (looked_up (mkKey (umid user) rd) w)))
      as [E | [E Hex]]; [left; exact E|].
    right. rewrite E.
    assert (Hconn : conn (gate (looked_up (mkKey (umid user) rd) w)) <> NULL).
    { apply orb_true_iff in E. destruct E as [E | E].
      - apply mid_change_true_iff in E. apply E.
      - apply stale_true_iff in E. apply E. }
    destruct (Hex Hconn) as (e & He & Hl). exists e. rewrite Hl in *.
    repeat split; assumption. }
  pose proof (path_disconnected _ _ _ _ _ _ Hp) as Hd.
  pose proof (first_use_events_quiet w) as (Hfd & Hfc & _).
  pose proof (teardown_events_quiet (looked_up (mkKey (umid user) rd) w))
    as (Htd & Htc & _).
  destruct Hp as [Hmid | Hmid Hst Hc | Hmid Habs Hs
                 | name opts oev err Hmid Habs Hs Hca
                 | name opts oev g Hmid Habs Hs Hca].
  - exists [], (EvDisconnect (gate (looked_up (mkKey (umid user) rd) w))
               :: first_use_events w).
    split; [reflexivity|]. split; [reflexivity|].
    assert (Hc : connects (EvDisconnect (gate (looked_up (mkKey (umid user) rd) w))
                            :: first_use_events w) = []) by exact Hfc.
    destruct (Hearly _ Hc Hd) as [H1 H2].
    split; [exact H1|]. split; [cbn; lia | exact H2].
  - exists [], []. repeat split; auto.
  - exists [], (teardown_events (looked_up (mkKey (umid user) rd) w)
               ++ first_use_events w).
    split; [reflexivity|]. split; [reflexivity|].
    assert (Hc : connects (teardown_events (looked_up (mkKey (umid user) rd) w)
                            ++ first_use_events w) = []).
    { rewrite connects_app, Htc, Hfc. reflexivity. }
    destruct (Hearly _ Hc Hd) as [H1 H2].
    split; [exact H1|]. split; [cbn; lia | exact H2].
  - destruct (connect_attempt_quiet _ _ _ _ _ Hca) as (Hod & Hoc & _).
    exists (option_list oev),
      (teardown_events (looked_up (mkKey (umid user) rd) w)
       ++ first_use_events w).
    split; [rewrite <- !app_assoc; reflexivity|]. split; [exact Hod|].
    assert (Hc : connects (teardown_events (looked_up (mkKey (umid user) rd) w)
                            ++ first_use_events w) = []).
    { rewrite connects_app, Htc, Hfc. reflexivity. }
    rewrite disconnected_app, Hod in Hd.
    destruct (Hearly _ Hc Hd) as [H1 H2].
    split; [exact H1|]. split; [|exact H2].
    rewrite Hoc. destruct oev; cbn; lia.
  - destruct (connect_attempt_quiet _ _ _ _ _ Hca) as (Hod & Hoc & _).
    exists (EvNewConnectionLog (conn g) name (umid user) (um_userid user)
              :: option_list oev),
      (teardown_events (looked_up (mkKey (umid user) rd) w)
       ++ first_use_events w).
    split; [cbn [app]; rewrite <- !app_assoc; reflexivity|].
    split; [exact Hod|].
    assert (Hc : connects (teardown_events (looked_up (mkKey (umid user) rd) w)
                            ++ first_use_events w) = []).
    { rewrite connects_app, Htc, Hfc. reflexivity. }
    change (disconnected (?x :: ?l)) with (disconnected l) in Hd.
    rewrite disconnected_app, Hod in Hd.
    destruct (Hearly _ Hc Hd) as [H1 H2].
    split; [exact H1|]. split; [|exact H2].
    change (connects (?x :: ?l)) with (connects l).
    rewrite Hoc. destruct oev; cbn; lia.
Qed.

(** ** The life of the backend *)

Lemma registered_app a b : registered (a ++ b) = registered a ++ registered b.
Proof.
  induction a as [|ev a IH]; [reflexivity|].
  cbn. destruct (is_registration ev); rewrite IH; reflexivity.
Qed.

Lemma registered_first_use w : registered (first_use_events w) = first_use_events w.
Proof. unfold first_use_events. destruct (ConnectionHash w); reflexivity. Qed.

Lemma registered_teardown e : registered (teardown_events e) = [].
Proof. unfold teardown_events. destruct (stale e); reflexivity. Qed.

Lemma registered_connect_attempt server user tr oev r :
  connect_attempt server user tr = (oev, r) -> registered (option_list oev) = [].
Proof.
  intros Hca.
  destruct (connect_attempt_event _ _ _ _ _ Hca)
    as [(-> & _) | (ev & -> & Hev & _)]; [reflexivity|].
  destruct ev; try discriminate; reflexivity.
Qed.

(** The registrations of a call are those of the first-use block. *)
Lemma path_registered user rd w new e' r :
  GetConnection_path user rd w new e' r ->
  registered new = first_use_events w.
Proof.
  intros Hp.
  destruct Hp as [Hmid | Hmid Hst Hc | Hmid Habs Hs
                 | name opts oev err Hmid Habs Hs Hca
                 | name opts oev g Hmid Habs Hs Hca];
    cbn [registered is_registration]; rewrite ?registered_app;
    try rewrite (registered_connect_attempt _ _ _ _ _ Hca);
    rewrite ?registered_teardown, ?registered_first_use; try reflexivity.
  symmetry. apply (looked_up_present _ _ Hc).
Qed.

Lemma reachable_registered w :
  reachable w ->
  registered (trace w)
  = match ConnectionHash w with Some _ => registrations | None => [] end.
Proof.
  induction 1 as [fs um | w user wps rd _ IH | w arg cacheid hv _ IH
                 | w b _ IH | w fs um _ IH].
  - reflexivity.
  - destruct (GetConnection_run user wps rd w) as (new & e' & r & Hp & Heq).
    rewrite Heq. cbn [fst trace ConnectionHash].
    rewrite registered_app, (path_registered _ _ _ _ _ _ Hp), IH.
    unfold first_use_events. destruct (ConnectionHash w); reflexivity.
  - rewrite pgfdw_inval_callback_eq. cbn [fst].
    destruct w as [[m|] f fs um tr]; exact IH.
  - destruct b; exact IH.
  - exact IH.
Qed.

(** X6: the callbacks are registered once in the life of a backend.  In
    every state the backend reaches, the trace holds no registration
    while the table does not exist, and from the creation of the table
    on it holds the four registrations of the first-use block, each
    once. *)
Theorem callbacks_registered_once (w : World) :
  reachable w ->
  registered (trace w)
  = match ConnectionHash w with Some _ => registrations | None => [] end.
Proof. apply reachable_registered. Qed.

Lemma kept_insert key e' w f fs um tr :
  kept w ->
  (conn (gate e') <> NULL -> at_rest key e') ->
  kept (mkWorld (Some (<[key := e']> (entries w))) f fs um tr).
Proof.
  intros Hk He' k e.
  change (entries (mkWorld (Some ?m) _ _ _ _)) with m.
  destruct (decide (k = key)) as [-> | Hne].
  - rewrite lookup_insert_eq. intros [= <-]. exact He'.
  - rewrite lookup_insert_ne by congruence. apply Hk.
Qed.

Lemma looked_up_kept key w :
  kept w -> conn (gate (looked_up key w)) <> NULL -> at_rest key (looked_up key w).
Proof.
  unfold looked_up. intros Hk.
  destruct (entries w !! key) as [e|] eqn:He; cbn.
  - apply (Hk key e He).
  - intros Hc. contradiction Hc. reflexivity.
Qed.

Lemma inval_entry_at_rest cacheid hv k e :
  at_rest k e -> at_rest k (inval_entry cacheid hv e).
Proof.
  destruct (inval_entry_frame cacheid hv e) as [-> | ->]; intros Hr; exact Hr.
Qed.

Lemma reachable_kept w : reachable w -> kept w.
Proof.
  induction 1 as [fs um | w user wps rd _ IH | w arg cacheid hv _ IH
                 | w b _ IH | w fs um _ IH].
  - intros k e. cbn. rewrite lookup_empty. discriminate.
  - destruct (GetConnection_run user wps rd w) as (new & e' & r & Hp & Heq).
    rewrite Heq. cbn [fst]. apply kept_insert; [exact IH|].
    destruct Hp as [Hmid | Hmid Hst Hc | Hmid Habs Hs
                   | name opts oev err Hmid Habs Hs Hca
                   | name opts oev g Hmid Habs Hs Hca];
      try (intros Hc'; contradiction Hc'; reflexivity).
    + intros _. apply (looked_up_kept _ _ IH Hc).
    + intros _. repeat split.
  - rewrite pgfdw_inval_callback_eq. cbn [fst].
    destruct w as [[m|] f fs um tr]; cbn [ConnectionHash]; [|exact IH].
    intros k e.
    change (entries (put_table ?m' _)) with m'.
    rewrite lookup_fmap.
    destruct (m !! k) as [e0|] eqn:He0; [|discriminate].
    cbn. intros [= <-] Hc. apply inval_entry_at_rest.
    apply (IH k e0 He0).
    destruct (inval_entry_frame cacheid hv e0) as [E | E]; rewrite E in Hc;
      exact Hc.
  - destruct b; exact IH.
  - exact IH.
Qed.

(** X7: no function of the file opens a transaction on an entry, marks
    an error on it or starts a state change.  In every state the backend
    reaches through the file, an entry that holds a gate has depth 0, no
    error and no state change in progress, and carries the [read] flag
    and the user-mapping fingerprint of its own key. *)
Theorem reachable_entries_at_rest
    (w : World) (k : ConnCacheKey) (e : ConnCacheEntry) :
  reachable w ->
  entries w !! k = Some e ->
  conn (gate e) <> NULL ->
  xact_depth e = 0%Z
  /\ have_error e = false
  /\ changing_xact_state e = false
  /\ entry_read e = read k
  /\ mapping_hashvalue e = GetSysCacheHashValue1 USERMAPPINGOID (userid k).
Proof. intros Hw. apply (reachable_kept w Hw). Qed.

(** X8: in a state the backend reaches through the file the sanity check
    rejects no entry.  A call of [GetConnection] that fails there fails
    because the server of the user mapping is not in the catalog,
    because the driver is unknown, or with the error of a transport
    whose open it requested. *)
Theorem reachable_acquire_failures
    (w : World) (user : UserMapping) (wps rd : bool) (err : PgError) :
  reachable w ->
  (GetConnection user wps rd w).2 = Err err ->
  exists new,
    trace (GetConnection user wps rd w).1 = new ++ trace w
    /\ (err = server_lookup_error (um_serverid user)
        \/ err = invalid_driver_error
        \/ In (Err err) (connects new)).
Proof.
  intros Hw Herr.
  destruct (GetConnection_run user wps rd w) as (new & e' & r & Hp & Heq).
  rewrite Heq in *. cbn [fst snd trace] in *.
  exists new. split; [reflexivity|].
  destruct Hp as [Hmid | Hmid Hst Hc | Hmid Habs Hs
                 | name opts oev err' Hmid Habs Hs Hca
                 | name opts oev g Hmid Habs Hs Hca]; try discriminate.
  - exfalso. apply mid_change_true_iff in Hmid. destruct Hmid as [Hc Hch].
    destruct (looked_up_kept _ _ (reachable_kept w Hw) Hc) as (_ & _ & Hch' & _).
    congruence.
  - left. congruence.
  - injection Herr as ->. right.
    destruct (connect_attempt_event _ _ _ _ _ Hca)
      as [(_ & [= ->] & _) | (ev & -> & Hev & _)]; [left; reflexivity|].
    right. rewrite connects_app. apply in_or_app. left.
    unfold connects. cbn. rewrite Hev. left. reflexivity.
Qed.

(** ** Invalidations *)

(** Whether a notification marks an entry depends on its gate and on
    its fingerprints only. *)
Lemma inval_entry_marks c h e :
  exists b : bool,
    forall e',
      gate e' = gate e ->
      server_hashvalue e' = server_hashvalue e ->
      mapping_hashvalue e' = mapping_hashvalue e ->
      inval_entry c h e' = (if b then set_invalidated true e' else e').
Proof.
  exists (negb (conn (gate e) =? NULL)%N
          && ((h =? 0)%N
              || (bool_decide (c = FOREIGNSERVEROID)
                  && (server_hashvalue e =? h)%N)
              || (bool_decide (c = USERMAPPINGOID)
                  && (mapping_hashvalue e =? h)%N))).
  intros e' Hg Hs Hm. unfold inval_entry. rewrite Hg, Hs, Hm.
  destruct (conn (gate e) =? NULL)%N; reflexivity.
Qed.

Lemma inval_entry_twice c h e :
  inval_entry c h (inval_entry c h e) = inval_entry c h e.
Proof.
  destruct (inval_entry_marks c h e) as [b Hb].
  rewrite (Hb e) by reflexivity.
  destruct b; [|apply Hb; reflexivity].
  rewrite (Hb (set_invalidated true e)) by reflexivity. reflexivity.
Qed.

Lemma inval_entry_swap c1 h1 c2 h2 e :
  inval_entry c1 h1 (inval_entry c2 h2 e)
  = inval_entry c2 h2 (inval_entry c1 h1 e).
Proof.
  destruct (inval_entry_marks c1 h1 e) as [b1 Hb1].
  destruct (inval_entry_marks c2 h2 e) as [b2 Hb2].
  rewrite (Hb1 e), (Hb2 e) by reflexivity.
  destruct b1, b2;
    rewrite ?(Hb1 (set_invalidated true e)), ?(Hb2 (set_invalidated true e)),
      ?(Hb1 e), ?(Hb2 e) by reflexivity;
    reflexivity.
Qed.

(** X9: notifications may be repeated and reordered.  Delivering a
    notification twice leaves the state that delivering it once leaves,
    and two notifications delivered in either order leave the same
    state. *)
Theorem inval_callback_idempotent_and_commutative
    (w : World) (a1 a2 : N) (c1 c2 : SysCacheIdentifier) (h1 h2 : N) :
  (pgfdw_inval_callback a1 c1 h1 ;; pgfdw_inval_callback a1 c1 h1) w
  = pgfdw_inval_callback a1 c1 h1 w
  /\ (pgfdw_inval_callback a1 c1 h1 ;; pgfdw_inval_callback a2 c2 h2) w
     = (pgfdw_inval_callback a2 c2 h2 ;; pgfdw_inval_callback a1 c1 h1) w.
Proof.
  split.
  - rewrite (bind_Ok _ _ _ _ _ (pgfdw_inval_callback_eq a1 c1 h1 w)).
    rewrite !pgfdw_inval_callback_eq.
    destruct w as [[m|] f fs um tr]; cbn; [|reflexivity].
    unfold put_table. cbn. rewrite <- map_fmap_compose.
    do 3 f_equal. apply map_fmap_ext. intros k e _. apply inval_entry_twice.
  - rewrite (bind_Ok _ _ _ _ _ (pgfdw_inval_callback_eq a1 c1 h1 w)).
    rewrite (bind_Ok _ _ _ _ _ (pgfdw_inval_callback_eq a2 c2 h2 w)).
    rewrite !pgfdw_inval_callback_eq.
    destruct w as [[m|] f fs um tr]; cbn; [|reflexivity].
    unfold put_table. cbn. rewrite <- !map_fmap_compose.
    do 3 f_equal. apply map_fmap_ext. intros k e _. apply inval_entry_swap.
Qed.

(** X10: a change of a user mapping reaches the connections of both
    intents.  In a state the backend reaches through the file, a
    user-mapping notification with the fingerprint of a mapping marks
    every entry of that mapping that holds a gate, the reading and the
    writing one alike. *)
Theorem user_mapping_change_marks_both_intents
    (w : World) (arg : N) (id : N) (rd : bool) (e : ConnCacheEntry) :
  reachable w ->
  entries w !! mkKey id rd = Some e ->
  conn (gate e) <> NULL ->
  entries (pgfdw_inval_callback arg USERMAPPINGOID
             (GetSysCacheHashValue1 USERMAPPINGOID id) w).1 !! mkKey id rd
  = Some (set_invalidated true e).
Proof.
  intros Hw He Hc.
  destruct (reachable_kept w Hw _ _ He Hc) as (_ & _ & _ & _ & Hm).
  cbn [userid] in Hm.
  rewrite pgfdw_inval_callback_eq. cbn [fst].
  destruct w as [[m|] f fs um tr]; cbn [ConnectionHash].
  - change (entries (put_table ?m' _)) with m'.
    change (m !! mkKey id rd = Some e) in He.
    rewrite lookup_fmap, He. cbn. f_equal.
    apply (proj2 (inval_entry_cases _ _ e) Hc). right. right. auto.
  - cbn in He. rewrite lookup_empty in He. discriminate.
Qed.

(** X11: an invalidation is acted on by the next call.  When a reset
    notification (fingerprint 0) reaches an entry that holds a gate, is
    not in a state change and has depth 0, the next [GetConnection] for
    its key first disconnects that gate, and nothing else, and only
    then calls a transport; it leaves the entry without a gate, or with
    a newly opened gate and not invalidated. *)
Theorem invalidate_then_acquire_reconnects
    (w : World) (m : gmap ConnCacheKey ConnCacheEntry)
    (user : UserMapping) (wps rd : bool) (e : ConnCacheEntry)
    (arg : N) (cacheid : SysCacheIdentifier) :
  ConnectionHash w = Some m ->
  m !! mkKey (umid user) rd = Some e ->
  conn (gate e) <> NULL ->
  changing_xact_state e = false ->
  xact_depth e = 0%Z ->
  exists w1 w2 r later e2,
    pgfdw_inval_callback arg cacheid 0 w = (w1, Ok tt)
    /\ GetConnection user wps rd w1 = (w2, r)
    /\ trace w2
       = later ++ [EvDisconnect (gate e);
                   EvLog LOG "closing connection to ClickHouse due to invalidation"]
           ++ trace w
    /\ disconnected later = []
    /\ entries w2 !! mkKey (umid user) rd = Some e2
    /\ (conn (gate e2) = NULL
        \/ (In (Ok (gate e2)) (connects later) /\ invalidated e2 = false)).
Proof.
  intros Hm He Hc Hch Hd.
  set (e1 := set_invalidated true e).
  set (w1 := put_table (inval_entry cacheid 0 <$> m) w).
  assert (Hcb : pgfdw_inval_callback arg cacheid 0 w = (w1, Ok tt)).
  { rewrite pgfdw_inval_callback_eq, Hm. reflexivity. }
  assert (He1 : entries w1 !! mkKey (umid user) rd = Some e1).
  { change (entries w1) with (inval_entry cacheid 0 <$> m).
    rewrite lookup_fmap, He. cbn. f_equal.
    apply (proj2 (inval_entry_cases _ _ e) Hc). left. reflexivity. }
  assert (Hst : stale e1 = true).
  { apply stale_true_iff. repeat split; assumption. }
  assert (Hmid : mid_change e1 = false).
  { apply mid_change_false_iff. right. exact Hch. }
  destruct (GetConnection_run user wps rd w1) as (new & e' & r & Hp & Heq).
  exists w1, (GetConnection user wps rd w1).1, r.
  assert (Hfu : first_use_events w1 = []) by reflexivity.
  assert (Hte : teardown_events e1
                = [EvDisconnect (gate e);
                   EvLog LOG "closing connection to ClickHouse due to invalidation"]).
  { unfold teardown_events. rewrite Hst. reflexivity. }
  destruct Hp as [Hmid' | Hmid' Hst' Hc' | Hmid' Habs Hs
                 | name opts oev err Hmid' Habs Hs Hca
                 | name opts oev g Hmid' Habs Hs Hca];
    rewrite ?(looked_up_found _ _ _ He1) in *; try congruence;
    rewrite Heq; cbn [fst]; rewrite run_entry.
  - exists [], (set_conn NULL e1). rewrite Hte, Hfu.
    split; [exact Hcb|]. split; [reflexivity|]. split; [reflexivity|].
    split; [reflexivity|]. split; [reflexivity|]. left. reflexivity.
  - destruct (connect_attempt_quiet _ _ _ _ _ Hca) as (Hod & _ & _).
    exists (option_list oev). eexists. rewrite Hte, Hfu.
    split; [exact Hcb|]. split; [reflexivity|].
    split; [cbn [trace app]; rewrite ?app_nil_r, <- ?app_assoc; reflexivity|].
    split; [exact Hod|]. split; [reflexivity|]. left. reflexivity.
  - destruct (connect_attempt_quiet _ _ _ _ _ Hca) as (Hod & Hoc & _).
    exists (EvNewConnectionLog (conn g) name (umid user) (um_userid user)
              :: option_list oev). eexists. rewrite Hte, Hfu.
    split; [exact Hcb|]. split; [reflexivity|].
    split; [cbn [trace app]; rewrite ?app_nil_r, <- ?app_assoc; reflexivity|].
    split; [exact Hod|]. split; [reflexivity|].
    right. split; [|reflexivity].
    change (connects (?x :: ?l)) with (connects l). rewrite Hoc.
    destruct (connect_attempt_event _ _ _ _ _ Hca)
      as [(_ & [=] & _) | (ev & -> & _)].
    left. reflexivity.
Qed.

(** ** The request to the http transport *)

Lemma http_connstring_ext d d' :
  host d = host d' -> port d = port d' -> username d = username d' ->
  username d = None \/ password d = password d' ->
  http_connstring d = http_connstring d'.
Proof.
  unfold http_connstring. intros -> -> Hu Hp. rewrite <- Hu.
  destruct (username d) as [u|]; [|reflexivity].
  destruct Hp as [Hp | Hp]; [discriminate|]. rewrite Hp. reflexivity.
Qed.

(** X12: with the http driver, the request to the transport is made of
    the host, the port, the user name and the password, and the
    password counts only beside a user name.  Two configurations that
    resolve to the http driver and agree on these make the same request
    and get the same answer: the database name plays no part, nor does a
    password without a user name. *)
Theorem http_request_ignores_dbname_and_lone_password
    (server server' : ForeignServer) (user user' : UserMapping)
    (d d' : ch_connection_details) (w : World) :
  resolve server user = ("http"%string, d) ->
  resolve server' user' = ("http"%string, d') ->
  host d = host d' ->
  port d = port d' ->
  username d = username d' ->
  username d = None \/ password d = password d' ->
  clickhouse_connect server user w = clickhouse_connect server' user' w.
Proof.
  intros Hr Hr' Hh Hp Hu Hpw. unfold clickhouse_connect.
  rewrite Hr, Hr'. cbn [String.eqb Ascii.eqb Bool.eqb].
  rewrite (http_connstring_ext d d' Hh Hp Hu Hpw). reflexivity.
Qed.

(** ** Where a returned gate comes from *)

(** X13: a gate that [GetConnection] returns is either the one the entry
    already held, and then the call wrote no event and left the entry as
    it was, or the answer of a transport to a connect request of this
    call, and then the entry is made of that gate, depth 0, cleared
    flags, the [read] flag of the call and the two fingerprints, with
    nothing left of what the entry held before. *)
Theorem returned_gate_is_cached_or_just_opened
    (user : UserMapping) (wps rd : bool) (w w' : World) (g : ch_connection) :
  GetConnection user wps rd w = (w', Ok g) ->
  (trace w' = trace w
   /\ entries w' !! mkKey (umid user) rd = entries w !! mkKey (umid user) rd
   /\ gate <$> entries w !! mkKey (umid user) rd = Some g
   /\ conn g <> NULL)
  \/ (exists new,
        trace w' = new ++ trace w
        /\ In (Ok g) (connects new)
        /\ entries w' !! mkKey (umid user) rd
           = Some (mkEntry g 0 false false false rd
                     (GetSysCacheHashValue1 FOREIGNSERVEROID (um_serverid user))
                     (GetSysCacheHashValue1 USERMAPPINGOID (umid user)))).
Proof.
  intros Hrun.
  destruct (GetConnection_run user wps rd w) as (new & e' & r & Hp & Heq).
  rewrite Heq in Hrun. injection Hrun as <- Hr.
  cbn [trace]. rewrite run_entry.
  destruct Hp as [Hmid | Hmid Hst Hc | Hmid Habs Hs
                 | name opts oev err Hmid Habs Hs Hca
                 | name opts oev g' Hmid Habs Hs Hca]; try discriminate.
  - left. injection Hr as <-. split; [reflexivity|].
    revert Hc. unfold looked_up.
    destruct (entries w !! mkKey (umid user) rd) as [e|]; cbn.
    + intros Hc. repeat split. exact Hc.
    + intros Hc. contradiction Hc. reflexivity.
  - right. injection Hr as <-. eexists. split; [reflexivity|].
    split; [|reflexivity].
    change (connects (?x :: ?l)) with (connects l).
    rewrite connects_app. apply in_or_app. left.
    destruct (connect_attempt_quiet _ _ _ _ _ Hca) as (_ & -> & _).
    destruct (connect_attempt_event _ _ _ _ _ Hca)
      as [(_ & [=] & _) | (ev & -> & _)].
    left. reflexivity.
Qed.

(** X14: a change of the foreign server reaches the connection that was
    opened through it.  When [GetConnection] found no gate and returned
    a gate it opened, a server notification with the fingerprint of the
    user mapping's server marks the entry, and leaves the gate in it. *)
Theorem server_change_marks_opened_connection
    (user : UserMapping) (wps rd : bool) (w w1 : World) (g : ch_connection)
    (arg : N) :
  finds_no_gate (mkKey (umid user) rd) w ->
  GetConnection user wps rd w = (w1, Ok g) ->
  conn g <> NULL ->
  entries (pgfdw_inval_callback arg FOREIGNSERVEROID
             (GetSysCacheHashValue1 FOREIGNSERVEROID (um_serverid user)) w1).1
    !! mkKey (umid user) rd
  = Some (mkEntry g 0 false false true rd
            (GetSysCacheHashValue1 FOREIGNSERVEROID (um_serverid user))
            (GetSysCacheHashValue1 USERMAPPINGOID (umid user))).
Proof.
  intros Habs Hrun Hg.
  pose proof (finds_no_gate_looked_up _ _ Habs) as Hl.
  destruct (GetConnection_run user wps rd w) as (new & e' & r & Hp & Heq).
  rewrite Heq in Hrun. injection Hrun as <- Hr.
  rewrite pgfdw_inval_callback_eq. cbn [fst ConnectionHash].
  change (entries (put_table ?m' _)) with m'.
  rewrite lookup_fmap, lookup_insert_eq. cbn [fmap option_fmap option_map].
  destruct Hp as [Hmid | Hmid Hst Hc | Hmid Habs' Hs
                 | name opts oev err Hmid Habs' Hs Hca
                 | name opts oev g' Hmid Habs' Hs Hca]; try discriminate.
  - destruct Hl as [Hc' | [_ Hst']]; congruence.
  - injection Hr as ->. f_equal.
    match goal with |- inval_entry ?c ?h ?e = _ =>
      rewrite (proj1 (proj2 (inval_entry_cases c h e) Hg)) end;
      [reflexivity|].
    right. left. split; reflexivity.
Qed.

End MoreFacts.

(** * The key bytes

    The model keyed by the fields against the model keyed by the bytes. *)

Section PaddedFacts.

Context `{!Externals}.
Variable stack : N.

#[local] Instance mkKeyBytes_inj : Inj (=) (=) (fun k => Padded.mkKeyBytes k stack).
Proof. intros k1 k2 [=]. assumption. Qed.

Lemma entries_with_stack w :
  Padded.entries (with_stack stack w)
  = kmap (fun k => Padded.mkKeyBytes k stack) (entries w).
Proof.
  unfold Padded.entries, entries, with_stack. cbn.
  destruct (ConnectionHash w); cbn; [reflexivity|].
  symmetry. apply kmap_empty.
Qed.

Lemma same_run_ret {A} (a : A) : same_run stack (mret a) (Padded.M_ret A a).
Proof. intros w. reflexivity. Qed.

Lemma same_run_raise {A} e : same_run stack (@raise A e) (Padded.raise e).
Proof. intros w. reflexivity. Qed.

Lemma same_run_bind {A B} (m : M A) m' (f : A -> M B) f' :
  same_run stack m m' -> (forall a, same_run stack (f a) (f' a)) ->
  same_run stack (m ≫= f) (Padded.M_bind A B f' m').
Proof.
  intros Hm Hf w. unfold mbind, M_bind, Padded.M_bind.
  rewrite (Hm w). destruct (m w) as [w1 [a|e]]; cbn; [apply Hf | reflexivity].
Qed.

Lemma same_run_get {A} (f : World -> M A) (f' : Padded.World -> Padded.M A) :
  (forall w, f' (with_stack stack w) (with_stack stack w)
             = (with_stack stack (f w w).1, (f w w).2)) ->
  same_run stack (get_world ≫= f) (Padded.M_bind _ _ f' Padded.get_world).
Proof. intros Hf w. exact (Hf w). Qed.

Lemma same_run_emit ev : same_run stack (emit ev) (Padded.emit ev).
Proof. intros w. reflexivity. Qed.

Lemma same_run_flag b :
  same_run stack (set_xact_got_connection b) (Padded.set_xact_got_connection b).
Proof. intros w. reflexivity. Qed.

Lemma same_run_store key entry :
  same_run stack (store key entry)
    (Padded.store (Padded.mkKeyBytes key stack) entry).
Proof.
  intros w. unfold store, Padded.store, modify_world, Padded.modify_world.
  cbn [fst snd]. f_equal.
  unfold Padded.put_entry, put_entry, Padded.put_table, put_table.
  rewrite entries_with_stack. unfold with_stack. cbn. f_equal. f_equal.
  symmetry. apply (kmap_insert (fun k => Padded.mkKeyBytes k stack)).
Qed.

Lemma same_run_set_table_empty :
  same_run stack (set_table ∅) (Padded.set_table ∅).
Proof.
  intros w. unfold set_table, Padded.set_table, modify_world,
    Padded.modify_world, put_table, Padded.put_table, with_stack.
  cbn. rewrite kmap_empty. reflexivity.
Qed.

Lemma same_run_http cs :
  same_run stack (call_http_connect cs) (Padded.call_http_connect cs).
Proof. intros w. reflexivity. Qed.

Lemma same_run_binary d :
  same_run stack (call_binary_connect d) (Padded.call_binary_connect d).
Proof. intros w. reflexivity. Qed.

Lemma same_run_clickhouse_connect server user :
  same_run stack (clickhouse_connect server user)
    (Padded.clickhouse_connect server user).
Proof.
  unfold clickhouse_connect, Padded.clickhouse_connect.
  destruct (resolve server user) as [driver details].
  destruct (String.eqb driver "http"); [apply same_run_http|].
  destruct (String.eqb driver "binary");
    [apply same_run_binary | apply same_run_raise].
Qed.

Lemma same_run_GetForeignServer id :
  same_run stack (GetForeignServer id) (Padded.GetForeignServer id).
Proof.
  apply same_run_get. intros w. cbn [Padded.pg_foreign_server with_stack].
  destruct (pg_foreign_server w !! id) as [[name opts]|]; reflexivity.
Qed.

Lemma same_run_reject key entry :
  same_run stack (pgfdw_reject_incomplete_xact_state_change key entry)
    (Padded.pgfdw_reject_incomplete_xact_state_change
       (Padded.mkKeyBytes key stack) entry).
Proof.
  unfold pgfdw_reject_incomplete_xact_state_change,
    Padded.pgfdw_reject_incomplete_xact_state_change.
  destruct ((conn (gate entry) =? NULL)%N || negb (changing_xact_state entry));
    [apply same_run_ret|].
  apply same_run_bind; [apply same_run_emit | intros _].
  apply same_run_bind; [apply same_run_store | intros _].
  apply same_run_get. intros w.
  cbn [Padded.pg_user_mapping with_stack Padded.fields].
  destruct (pg_user_mapping w !! userid key) as [umserver|];
    [|reflexivity].
  apply (same_run_bind (GetForeignServer umserver)
           (Padded.GetForeignServer umserver));
    [apply same_run_GetForeignServer|].
  intros server. apply same_run_raise.
Qed.

Lemma same_run_init :
  same_run stack init_ConnectionHash Padded.init_ConnectionHash.
Proof.
  apply same_run_get. intros w.
  assert (Hsteps : same_run stack
            (set_table ∅ ;; emit EvRegisterXactCallback ;;
             emit EvRegisterSubXactCallback ;;
             emit (EvRegisterSyscacheCallback FOREIGNSERVEROID) ;;
             emit (EvRegisterSyscacheCallback USERMAPPINGOID))
            (Padded.M_bind _ _ (fun _ =>
               Padded.M_bind _ _ (fun _ =>
                 Padded.M_bind _ _ (fun _ =>
                   Padded.M_bind _ _ (fun _ =>
                     Padded.emit (EvRegisterSyscacheCallback USERMAPPINGOID))
                     (Padded.emit (EvRegisterSyscacheCallback FOREIGNSERVEROID)))
                   (Padded.emit EvRegisterSubXactCallback))
                 (Padded.emit EvRegisterXactCallback))
               (Padded.set_table ∅))).
  { repeat (apply same_run_bind; [|intros _]);
      first [apply same_run_set_table_empty | apply same_run_emit]. }
  specialize (Hsteps w).
  destruct w as [[m|] f fs um tr]; [reflexivity | exact Hsteps].
Qed.

Lemma same_run_hash_search_enter key :
  same_run stack (hash_search_enter key)
    (Padded.hash_search_enter (Padded.mkKeyBytes key stack)).
Proof.
  apply same_run_get. intros w.
  rewrite entries_with_stack.
  rewrite (lookup_kmap (fun k => Padded.mkKeyBytes k stack)).
  destruct (entries w !! key) as [entry|]; [reflexivity|].
  apply (same_run_bind (store key uninitialized)
           (Padded.store (Padded.mkKeyBytes key stack) uninitialized));
    [apply same_run_store | intros _].
  apply same_run_ret.
Qed.

Lemma same_run_find_or_create_entry key :
  same_run stack (find_or_create_entry key)
    (Padded.find_or_create_entry (Padded.mkKeyBytes key stack)).
Proof.
  unfold find_or_create_entry, Padded.find_or_create_entry.
  apply same_run_bind; [apply same_run_hash_search_enter | intros [entry found]].
  cbn [fst snd]. destruct found; [apply same_run_ret|].
  apply same_run_bind; [apply same_run_store | intros _]. apply same_run_ret.
Qed.

Lemma same_run_disconnect_if_invalidated key entry :
  same_run stack (disconnect_if_invalidated key entry)
    (Padded.disconnect_if_invalidated (Padded.mkKeyBytes key stack) entry).
Proof.
  unfold disconnect_if_invalidated, Padded.disconnect_if_invalidated.
  destruct (negb (conn (gate entry) =? NULL)%N && invalidated entry
            && (xact_depth entry =? 0)%Z); [|apply same_run_ret].
  apply same_run_bind; [apply same_run_emit | intros _].
  apply same_run_bind; [apply same_run_emit | intros _].
  apply same_run_bind; [apply same_run_store | intros _]. apply same_run_ret.
Qed.

Lemma same_run_establish_connection key user rd entry :
  same_run stack (establish_connection key user rd entry)
    (Padded.establish_connection (Padded.mkKeyBytes key stack) user rd entry).
Proof.
  unfold establish_connection, Padded.establish_connection.
  apply same_run_bind; [apply same_run_GetForeignServer | intros server].
  cbn zeta.
  apply same_run_bind; [apply same_run_store | intros _].
  apply same_run_bind; [apply same_run_clickhouse_connect | intros g].
  apply same_run_bind; [apply same_run_store | intros _].
  apply same_run_bind; [apply same_run_emit | intros _]. apply same_run_ret.
Qed.

(** With the same bytes on the stack at every call, [GetConnection] on
    the key bytes is [GetConnection] on the key fields. *)
Theorem GetConnection_same_stack user wps rd :
  same_run stack (GetConnection user wps rd)
    (Padded.GetConnection user wps rd stack).
Proof.
  unfold GetConnection, Padded.GetConnection.
  apply same_run_bind; [apply same_run_init | intros _].
  apply same_run_bind; [apply same_run_flag | intros _].
  cbn zeta.
  apply same_run_bind; [apply same_run_find_or_create_entry | intros entry].
  apply same_run_bind; [apply same_run_reject | intros _].
  apply same_run_bind; [apply same_run_disconnect_if_invalidated | intros e1].
  apply same_run_bind; [|intros e2; apply same_run_ret].
  destruct (conn (gate e1) =? NULL)%N;
    [apply same_run_establish_connection | apply same_run_ret].
Qed.

(** A call whose key bytes are not in the table goes to the connect,
    whatever the table holds under the same fields with other bytes. *)
Lemma GetConnection_new_bytes_connect user wps rd w m name opts :
  Padded.ConnectionHash w = Some m ->
  m !! Padded.mkKeyBytes (mkKey (umid user) rd) stack = None ->
  Padded.pg_foreign_server w !! um_serverid user = Some (name, opts) ->
  let server := mkForeignServer (um_serverid user) name opts in
  let key := Padded.mkKeyBytes (mkKey (umid user) rd) stack in
  let e := reset_entry user rd server (set_conn NULL uninitialized) in
  Padded.GetConnection user wps rd stack w
  = match connect_attempt server user (Padded.trace w) with
    | (oev, Ok g) =>
        (Padded.mkWorld (Some (<[key := set_gate g e]> m)) true
           (Padded.pg_foreign_server w) (Padded.pg_user_mapping w)
           (EvNewConnectionLog (conn g) name (umid user) (um_userid user)
              :: option_list oev ++ Padded.trace w),
         Ok g)
    | (oev, Err err) =>
        (Padded.mkWorld (Some (<[key := e]> m)) true
           (Padded.pg_foreign_server w) (Padded.pg_user_mapping w)
           (option_list oev ++ Padded.trace w),
         Err err)
    end.
Proof.
  intros Hm Hk Hs. cbn zeta.
  destruct w as [tbl f fs um tr]. cbn [Padded.ConnectionHash] in Hm.
  cbn [Padded.pg_foreign_server] in Hs. subst tbl.
  unfold Padded.GetConnection, Padded.init_ConnectionHash,
    Padded.find_or_create_entry, Padded.hash_search_enter,
    Padded.pgfdw_reject_incomplete_xact_state_change,
    Padded.disconnect_if_invalidated, Padded.establish_connection,
    Padded.GetForeignServer, Padded.clickhouse_connect, connect_attempt.
  unfold mbind, mret, Padded.M_bind, Padded.M_ret, Padded.get_world,
    Padded.store, Padded.emit, Padded.set_xact_got_connection,
    Padded.modify_world, Padded.raise, Padded.put_entry, Padded.put_table,
    Padded.put_flag, Padded.add_event, Padded.entries.
  cbn -[resolve String.eqb http_connstring lookup insert]. rewrite Hk.
  cbn -[resolve String.eqb http_connstring lookup insert]. rewrite Hs.
  cbn -[resolve String.eqb http_connstring lookup insert].
  destruct (resolve _ user) as [driver details].
  destruct (String.eqb driver "http").
  - unfold Padded.call_http_connect.
    cbn -[http_connstring lookup insert].
    destruct (http_connect _ _);
      cbn -[http_connstring lookup insert];
      rewrite ?insert_insert_eq; reflexivity.
  - destruct (String.eqb driver "binary").
    + unfold Padded.call_binary_connect. cbn -[lookup insert].
      destruct (binary_connect _ _); cbn -[lookup insert];
        rewrite ?insert_insert_eq; reflexivity.
    + cbn -[lookup insert]. rewrite ?insert_insert_eq. reflexivity.
Qed.

End PaddedFacts.

(** * Runs on the concrete backend *)

(** The collaborators of the runs below are those of [demo]. *)
#[local] Existing Instance demo.

(** An entry of a nested transaction, invalidated at depth 2: after the
    nested and the outer commit were delivered its depth is still 2, and
    the next [GetConnection] returns the old gate. *)
Lemma boundary_events_keep_depth_counterexample :
  let w1 :=
    (pgfdw_inval_callback 0 FOREIGNSERVEROID 21
       (demo_world (demo_entry 2 false false))).1 in
  let w2 :=
    (deliver_all [SubXactBoundary SUBXACT_EVENT_COMMIT_SUB 2 1 NULL;
                  XactBoundary XACT_EVENT_COMMIT NULL] w1).1 in
  entries w1 !! demo_key = Some (demo_entry 2 false true)
  /\ entries w2 !! demo_key = Some (demo_entry 2 false true)
  /\ xact_depth (demo_entry 2 false true) <> 0%Z
  /\ GetConnection demo_user false false w2 = (w2, Ok demo_gate)
  /\ disconnected (trace w2) = [].
Proof.
  cbv zeta. split; [vm_compute; reflexivity|].
  split; [vm_compute; reflexivity|].
  split; [discriminate|].
  split; vm_compute; reflexivity.
Qed.

(** An entry caught in the middle of a state change whose user mapping
    was dropped: the check leaves with the lookup failure, an internal
    error, and not with the connection exception. *)
Lemma reject_orphan_entry_counterexample :
  exists w',
    pgfdw_reject_incomplete_xact_state_change demo_key (demo_entry 0 true false)
      (demo_orphan (demo_entry 0 true false))
    = (w', Err (mkError ERRCODE_INTERNAL_ERROR
                  "cache lookup failed for user mapping 20"))
    /\ ERRCODE_INTERNAL_ERROR <> ERRCODE_CONNECTION_EXCEPTION.
Proof.
  eexists. split; [vm_compute; reflexivity | discriminate].
Qed.

Lemma reject_incomplete_xact_state_change_run :
  pgfdw_reject_incomplete_xact_state_change demo_key (demo_entry 0 false false)
    (demo_world (demo_entry 0 false false))
  = (demo_world (demo_entry 0 false false), Ok tt)
  /\ exists w' err,
       pgfdw_reject_incomplete_xact_state_change demo_key
         (demo_entry 0 true false) (demo_world (demo_entry 0 true false))
       = (w', Err err)
       /\ trace w' = [EvDisconnect demo_gate]
       /\ entries w' !! demo_key = Some (set_conn NULL (demo_entry 0 true false))
       /\ err = connection_lost_error "ch1".
Proof.
  split.
  - apply (proj1 (reject_incomplete_xact_state_change_spec demo_key
                    (demo_entry 0 false false)
                    (demo_world (demo_entry 0 false false)))).
    right. reflexivity.
  - destruct (proj2 (reject_incomplete_xact_state_change_spec demo_key
                       (demo_entry 0 true false)
                       (demo_world (demo_entry 0 true false))))
      as (w' & err & Hrun & Htr & He & _ & Hname & _).
    + vm_compute. discriminate.
    + reflexivity.
    + exists w', err. split; [exact Hrun|]. split; [exact Htr|].
      split; [exact He|].
      apply (Hname 10%N "ch1"%string [mkDefElem "host" "A"]);
        vm_compute; reflexivity.
Defined.

Lemma inval_callback_marks_matching_entries_run :
  exists w',
    pgfdw_inval_callback 0 FOREIGNSERVEROID 21
      (demo_world (demo_entry 0 false false)) = (w', Ok tt)
    /\ entries w' !! demo_key = Some (demo_entry 0 false true).
Proof.
  destruct (inval_callback_marks_matching_entries
              (demo_world (demo_entry 0 false false))
              (demo_table (demo_entry 0 false false))
              0 FOREIGNSERVEROID 21 eq_refl) as (w' & Hrun & Hall).
  exists w'. split; [exact Hrun|].
  destruct (Hall demo_key (demo_entry 0 false false)) as (e' & He' & _ & Hp).
  - vm_compute. reflexivity.
  - rewrite He'. f_equal.
    apply (proj1 (Hp ltac:(vm_compute; discriminate))).
    right. left. split; reflexivity.
Defined.

Lemma inval_callback_only_sets_invalidated_run :
  exists w',
    pgfdw_inval_callback 0 USERMAPPINGOID 0
      (demo_world (demo_entry 2 false false)) = (w', Ok tt)
    /\ trace w' = []
    /\ exists e', entries w' !! demo_key = Some e'
         /\ gate e' = demo_gate /\ xact_depth e' = 2%Z.
Proof.
  destruct (inval_callback_only_sets_invalidated
              (demo_world (demo_entry 2 false false)) 0 USERMAPPINGOID 0)
    as (w' & Hrun & Htr & _ & _ & _ & _ & Hall).
  exists w'. split; [exact Hrun|]. split; [exact Htr|].
  destruct (Hall demo_key (demo_entry 2 false false))
    as (e' & He' & _ & Hg & Hd & _).
  - vm_compute. reflexivity.
  - exists e'. split; [exact He'|]. split; [exact Hg | exact Hd].
Defined.

(** An invalidated entry at depth 1 that is in the middle of a state
    change: [GetConnection] disconnects its gate although the depth is
    above 0. *)
Lemma mid_change_gate_closed_in_transaction_counterexample :
  let e := demo_entry 1 true true in
  let w := demo_world e in
  entries w !! demo_key = Some e
  /\ invalidated e = true
  /\ xact_depth e = 1%Z
  /\ trace w = []
  /\ disconnected (trace (GetConnection demo_user false false w).1) = [gate e]
  /\ gate <$> entries (GetConnection demo_user false false w).1 !! demo_key
     = Some (mkGate NULL 1).
Proof.
  cbv zeta. repeat split; vm_compute; reflexivity.
Qed.

Lemma stale_gate_closed_only_out_of_transaction_run :
  (exists w' r new,
     GetConnection demo_user false false (demo_world (demo_entry 0 false true))
     = (w', r)
     /\ trace w' = new /\ disconnected new = [demo_gate])
  /\ (exists w' new,
        GetConnection demo_user false false
          (demo_world (demo_entry 2 false true)) = (w', Ok demo_gate)
        /\ trace w' = new /\ new = []
        /\ entries w' !! demo_key = Some (demo_entry 2 false true)).
Proof.
  split.
  - destruct (stale_gate_closed_only_out_of_transaction demo_user false false
                (demo_world (demo_entry 0 false true)) (demo_entry 0 false true))
      as (w' & r & new & Hrun & Htr & Hst & _).
    + vm_compute. reflexivity.
    + right. reflexivity.
    + exists w', r, new. split; [exact Hrun|].
      split; [rewrite Htr; apply app_nil_r|].
      apply Hst. repeat split. vm_compute. discriminate.
  - destruct (stale_gate_closed_only_out_of_transaction demo_user false false
                (demo_world (demo_entry 2 false true)) (demo_entry 2 false true))
      as (w' & r & new & Hrun & Htr & _ & Hkeep).
    + vm_compute. reflexivity.
    + right. reflexivity.
    + destruct Hkeep as (_ & Hk).
      { intros (_ & _ & Hd). discriminate Hd. }
      destruct Hk as (Hnew & Hr & He); [vm_compute; discriminate|].
      exists w', new. subst r. split; [exact Hrun|].
      split; [rewrite Htr; apply app_nil_r|]. split; [exact Hnew | exact He].
Defined.

Lemma cache_hit_returns_same_gate_run :
  let w1 := (GetConnection demo_user false false demo_start).1 in
  acquire_all false [(demo_user, true); (demo_user, false)] w1
  = (w1, [Ok demo_gate; Ok demo_gate])
  /\ opened (trace w1) ≡ₚ held (entries w1) ++ disconnected (trace w1)
  /\ (length (held (entries w1)) <= size (entries w1))%nat.
Proof.
  cbv zeta. split.
  - refine (proj1 cache_hit_returns_same_gate demo_user false false demo_start
              (GetConnection demo_user false false demo_start).1 demo_gate
              [(demo_user, true); (demo_user, false)] _ _ _).
    + vm_compute. reflexivity.
    + vm_compute. discriminate.
    + repeat constructor.
  - apply (proj2 cache_hit_returns_same_gate).
    apply reach_acquire. apply reach_start.
Defined.

Lemma resolve_user_overrides_server_run :
  field_value F_host
    (resolve (mkForeignServer 10 "ch1" [mkDefElem "host" "A"])
             (mkUserMapping 20 5 10 [mkDefElem "host" "B"]))
  = VString "B"
  /\ field_value F_port
       (resolve (mkForeignServer 10 "ch1" [mkDefElem "port" "9000"])
                (mkUserMapping 20 5 10 []))
     = VInt 9000
  /\ field_value F_port
       (resolve (mkForeignServer 10 "ch1" []) (mkUserMapping 20 5 10 []))
     = VInt 8123.
Proof.
  split; [|split].
  - refine (proj1 (resolve_user_overrides_server
                    (mkForeignServer 10 "ch1" [mkDefElem "host" "A"])
                    (mkUserMapping 20 5 10 [mkDefElem "host" "B"]) F_host)
                 "B"%string _).
    reflexivity.
  - refine (proj1 (proj2 (resolve_user_overrides_server
                    (mkForeignServer 10 "ch1" [mkDefElem "port" "9000"])
                    (mkUserMapping 20 5 10 []) F_port)) "9000"%string _ _);
      reflexivity.
  - refine (proj1 (proj2 (proj2 (resolve_user_overrides_server
                    (mkForeignServer 10 "ch1" []) (mkUserMapping 20 5 10 [])
                    F_port))) _ _); reflexivity.
Defined.

Lemma connect_failure_leaves_entry_without_gate_run :
  let w1 := (GetConnection demo_flaky_user false false demo_start).1 in
  (GetConnection demo_flaky_user false false demo_start).2 = Err demo_refused
  /\ (exists e1, entries w1 !! demo_key = Some e1 /\ conn (gate e1) = NULL)
  /\ exists w2,
       GetConnection demo_flaky_user true false w1 = (w2, Ok (mkGate 105 1))
       /\ gate <$> entries w2 !! demo_key = Some (mkGate 105 1).
Proof.
  cbv zeta.
  destruct (connect_failure_leaves_entry_without_gate
              demo_flaky_user false false demo_start
              (GetConnection demo_flaky_user false false demo_start).1
              (GetConnection demo_flaky_user false false demo_start).2
              (EvHttpConnect "http://flaky:8123/" (Err demo_refused)
                 :: registrations)
              (EvHttpConnect "http://flaky:8123/" (Err demo_refused))
              demo_refused)
    as (Hr & He & Hretry).
  - vm_compute. reflexivity.
  - vm_compute. reflexivity.
  - left. reflexivity.
  - reflexivity.
  - split; [exact Hr|]. split; [exact He|].
    apply (Hretry demo_flaky_user true "ch1"%string [mkDefElem "host" "A"]);
      vm_compute; reflexivity.
Defined.

(** A stale gate and a user mapping whose driver option was changed to
    native: the call fails with the invalid-driver error, and by then
    it has disconnected the gate and rewritten the entry. *)
Lemma unknown_driver_changes_entry_counterexample :
  let e := demo_entry 0 false true in
  let w := demo_world e in
  (GetConnection demo_native_user false false w).2 = Err invalid_driver_error
  /\ entries w !! demo_key = Some e
  /\ entries (GetConnection demo_native_user false false w).1 !! demo_key
     = Some (mkEntry (mkGate NULL 1) 0 false false false false 21 61)
  /\ e <> mkEntry (mkGate NULL 1) 0 false false false false 21 61
  /\ disconnected (trace (GetConnection demo_native_user false false w).1)
     = [demo_gate].
Proof.
  cbv zeta. split; [vm_compute; reflexivity|].
  split; [vm_compute; reflexivity|].
  split; [vm_compute; reflexivity|].
  split; [discriminate | vm_compute; reflexivity].
Qed.

Lemma unknown_driver_fails_after_reset_run :
  exists w' new,
    GetConnection demo_native_user false false demo_start
    = (w', Err invalid_driver_error)
    /\ trace w' = new /\ connects new = []
    /\ entries w' !! demo_key
       = Some (mkEntry (mkGate NULL 78) 0 false false false false 21 61).
Proof.
  destruct (unknown_driver_fails_after_reset demo_native_user false false
              demo_start "ch1"%string [mkDefElem "host" "A"])
    as (w' & new & Hrun & Htr & Hc & _ & _ & _ & He).
  - vm_compute. exact I.
  - vm_compute. reflexivity.
  - vm_compute. discriminate.
  - vm_compute. discriminate.
  - exists w', new. split; [exact Hrun|].
    split; [rewrite Htr; apply app_nil_r|]. split; [exact Hc | exact He].
Defined.

Lemma acquire_resets_entry_before_connect_run :
  exists w' e',
    GetConnection demo_flaky_user false false
      (demo_world (mkEntry demo_gate 0 true false true false 1 2))
    = (w', Err demo_refused)
    /\ entries w' !! demo_key = Some e'
    /\ xact_depth e' = 0%Z /\ have_error e' = false
    /\ changing_xact_state e' = false /\ invalidated e' = false
    /\ server_hashvalue e' = 21%N /\ mapping_hashvalue e' = 61%N
    /\ conn (gate e') = NULL.
Proof.
  destruct (acquire_resets_entry_before_connect demo_flaky_user false false
              (demo_world (mkEntry demo_gate 0 true false true false 1 2)))
    as (w' & r & e' & Hrun & He & Hd & Hh & Hc & Hi & _ & Hs & Hm & Hg).
  - vm_compute. right. repeat split.
  - assert (Hr : r = Err demo_refused).
    { change r with (w', r).2. rewrite <- Hrun. vm_compute. reflexivity. }
    subst r. exists w', e'. repeat split; assumption.
Defined.

(** The foreign server was dropped while the entry held a gate marked
    for remaking.  The call closes the gate, finds the entry without one
    and leaves with the lookup error; the entry is still marked
    invalidated and in error, with the fingerprints it had. *)
Lemma acquire_without_server_resets_nothing_counterexample :
  let e := mkEntry demo_gate 0 true false true false 1 2 in
  let w := demo_unserved e in
  GetConnection demo_user false false w
  = (mkWorld (Some (demo_table (set_conn NULL e))) true ∅ demo_mappings
       [EvDisconnect demo_gate;
        EvLog LOG "closing connection to ClickHouse due to invalidation"],
     Err (server_lookup_error 10))
  /\ entries w !! demo_key = Some e
  /\ entries (GetConnection demo_user false false w).1 !! demo_key
     = Some (mkEntry (mkGate NULL 1) 0 true false true false 1 2)
  /\ invalidated (set_conn NULL e) = true
  /\ have_error (set_conn NULL e) = true
  /\ server_hashvalue (set_conn NULL e)
     <> GetSysCacheHashValue1 FOREIGNSERVEROID (um_serverid demo_user)
  /\ mapping_hashvalue (set_conn NULL e)
     <> GetSysCacheHashValue1 USERMAPPINGOID (umid demo_user).
Proof.
  cbv zeta. split; [vm_compute; reflexivity|].
  split; [vm_compute; reflexivity|].
  split; [vm_compute; reflexivity|].
  split; [reflexivity|]. split; [reflexivity|].
  split; vm_compute; discriminate.
Qed.

(** ** Runs of the further properties *)

Lemma GetConnection_leaves_other_keys_run :
  entries (GetConnection demo_user false true
             (demo_world (demo_entry 0 false true))).1 !! demo_key
  = Some (demo_entry 0 false true)
  /\ pg_foreign_server (GetConnection demo_user false true
                          (demo_world (demo_entry 0 false true))).1
     = demo_servers
  /\ pg_user_mapping (GetConnection demo_user false true
                        (demo_world (demo_entry 0 false true))).1
     = demo_mappings.
Proof.
  destruct (GetConnection_leaves_other_keys demo_user false true
              (demo_world (demo_entry 0 false true)) demo_key)
    as (He & Hs & Hm).
  - discriminate.
  - split; [rewrite He; vm_compute; reflexivity|].
    split; [exact Hs | exact Hm].
Defined.

Lemma GetConnection_result_matches_entry_run :
  exists e',
    entries (GetConnection demo_user false false demo_start).1 !! demo_key
    = Some e'
    /\ gate e' = demo_gate.
Proof.
  apply (GetConnection_result_matches_entry demo_user false false demo_start
           (GetConnection demo_user false false demo_start).1 (Ok demo_gate)).
  vm_compute. reflexivity.
Defined.

Lemma failed_acquire_is_retried_run :
  let w1 :=
    (GetConnection demo_user false false
       (demo_world (demo_entry 1 true true))).1 in
  (GetConnection demo_user false false
     (demo_world (demo_entry 1 true true))).2
  = Err (connection_lost_error "ch1")
  /\ exists w2 e2,
       GetConnection demo_user true false w1 = (w2, Ok (mkGate 101 1))
       /\ entries w2 !! demo_key = Some e2
       /\ changing_xact_state e2 = false
       /\ gate e2 = mkGate 101 1.
Proof.
  cbv zeta. split; [vm_compute; reflexivity|].
  destruct (failed_acquire_is_retried demo_user demo_user false true false
              (demo_world (demo_entry 1 true true))
              (GetConnection demo_user false false
                 (demo_world (demo_entry 1 true true))).1
              (connection_lost_error "ch1") "ch1"%string
              [mkDefElem "host" "A"])
    as (w2 & e2 & Hrun & He & _ & _ & Hch & _ & Hg).
  - vm_compute. reflexivity.
  - reflexivity.
  - vm_compute. reflexivity.
  - exists w2, e2. split; [exact Hrun|]. split; [exact He|].
    split; [exact Hch | exact Hg].
Defined.

Lemma callbacks_registered_once_run :
  registered
    (trace (GetConnection demo_flaky_user true false
              (GetConnection demo_user false false demo_start).1).1)
  = registrations.
Proof.
  refine (eq_trans (callbacks_registered_once
                      (GetConnection demo_flaky_user true false
                         (GetConnection demo_user false false demo_start).1).1
                      _) _).
  - apply reach_acquire, reach_acquire, reach_start.
  - vm_compute. reflexivity.
Defined.

Lemma reachable_entries_at_rest_run :
  xact_depth (demo_entry 0 false false) = 0%Z
  /\ have_error (demo_entry 0 false false) = false
  /\ changing_xact_state (demo_entry 0 false false) = false
  /\ entry_read (demo_entry 0 false false) = false
  /\ mapping_hashvalue (demo_entry 0 false false) = 61%N.
Proof.
  refine (reachable_entries_at_rest
            (GetConnection demo_user false false demo_start).1 demo_key
            (demo_entry 0 false false) _ _ _).
  - apply reach_acquire, reach_start.
  - vm_compute. reflexivity.
  - vm_compute. discriminate.
Defined.

Lemma reachable_acquire_failures_run :
  exists new,
    trace (GetConnection demo_flaky_user false false demo_start).1
    = new ++ trace demo_start
    /\ (demo_refused = server_lookup_error 10
        \/ demo_refused = invalid_driver_error
        \/ In (Err demo_refused) (connects new)).
Proof.
  apply (reachable_acquire_failures demo_start demo_flaky_user false false).
  - apply reach_start.
  - vm_compute. reflexivity.
Defined.

Lemma user_mapping_change_marks_both_intents_run :
  entries (pgfdw_inval_callback 0 USERMAPPINGOID 61
             (GetConnection demo_user false true demo_start).1).1
    !! mkKey 20 true
  = Some (mkEntry (mkGate 104 1) 0 false false true true 21 61).
Proof.
  refine (user_mapping_change_marks_both_intents
            (GetConnection demo_user false true demo_start).1 0 20 true
            (mkEntry (mkGate 104 1) 0 false false false true 21 61) _ _ _).
  - apply reach_acquire, reach_start.
  - vm_compute. reflexivity.
  - vm_compute. discriminate.
Defined.

Lemma invalidate_then_acquire_reconnects_run :
  exists w1 w2 r later e2,
    pgfdw_inval_callback 0 FOREIGNSERVEROID 0
      (demo_world (demo_entry 0 false false)) = (w1, Ok tt)
    /\ GetConnection demo_user false false w1 = (w2, r)
    /\ trace w2
       = later ++ [EvDisconnect demo_gate;
                   EvLog LOG "closing connection to ClickHouse due to invalidation"]
    /\ disconnected later = []
    /\ entries w2 !! demo_key = Some e2
    /\ (conn (gate e2) = NULL
        \/ (In (Ok (gate e2)) (connects later) /\ invalidated e2 = false)).
Proof.
  destruct (invalidate_then_acquire_reconnects
              (demo_world (demo_entry 0 false false))
              (demo_table (demo_entry 0 false false))
              demo_user false false (demo_entry 0 false false)
              0 FOREIGNSERVEROID)
    as (w1 & w2 & r & later & e2 & Hcb & Hrun & Htr & Hd & He & Hg).
  - reflexivity.
  - vm_compute. reflexivity.
  - vm_compute. discriminate.
  - reflexivity.
  - reflexivity.
  - exists w1, w2, r, later, e2. split; [exact Hcb|]. split; [exact Hrun|].
    split; [rewrite Htr; reflexivity|]. split; [exact Hd|].
    split; [exact He | exact Hg].
Defined.

Lemma http_request_ignores_dbname_and_lone_password_run :
  clickhouse_connect (mkForeignServer 10 "ch1" [mkDefElem "host" "A"])
    (mkUserMapping 20 5 10
       [mkDefElem "password" "secret"; mkDefElem "dbname" "sales"])
    demo_start
  = clickhouse_connect (mkForeignServer 10 "ch1" [mkDefElem "host" "A"])
      (mkUserMapping 20 5 10 []) demo_start.
Proof.
  apply (http_request_ignores_dbname_and_lone_password
           (mkForeignServer 10 "ch1" [mkDefElem "host" "A"])
           (mkForeignServer 10 "ch1" [mkDefElem "host" "A"])
           (mkUserMapping 20 5 10
              [mkDefElem "password" "secret"; mkDefElem "dbname" "sales"])
           (mkUserMapping 20 5 10 [])
           (mkDetails "A" 8123 None (Some "secret"%string) "sales")
           (mkDetails "A" 8123 None None "default")).
  - reflexivity.
  - reflexivity.
  - reflexivity.
  - reflexivity.
  - reflexivity.
  - left. reflexivity.
Defined.

Lemma returned_gate_is_cached_or_just_opened_run :
  (trace (GetConnection demo_user false false demo_start).1 = trace demo_start
   /\ entries (GetConnection demo_user false false demo_start).1 !! demo_key
      = entries demo_start !! demo_key
   /\ gate <$> entries demo_start !! demo_key = Some demo_gate
   /\ conn demo_gate <> NULL)
  \/ (exists new,
        trace (GetConnection demo_user false false demo_start).1
        = new ++ trace demo_start
        /\ In (Ok demo_gate) (connects new)
        /\ entries (GetConnection demo_user false false demo_start).1
             !! demo_key
           = Some (mkEntry demo_gate 0 false false false false 21 61)).
Proof.
  refine (returned_gate_is_cached_or_just_opened demo_user false false
            demo_start (GetConnection demo_user false false demo_start).1
            demo_gate _).
  vm_compute. reflexivity.
Defined.

Lemma server_change_marks_opened_connection_run :
  entries (pgfdw_inval_callback 0 FOREIGNSERVEROID 21
             (GetConnection demo_user false false demo_start).1).1 !! demo_key
  = Some (mkEntry demo_gate 0 false false true false 21 61).
Proof.
  refine (server_change_marks_opened_connection demo_user false false
            demo_start (GetConnection demo_user false false demo_start).1
            demo_gate 0 _ _ _).
  - vm_compute. exact I.
  - vm_compute. reflexivity.
  - vm_compute. discriminate.
Defined.

(** ** The key bytes on the concrete backend *)

(** C5: two calls of [GetConnection] for the same user mapping and the
    same intent, with no invalidation and no transaction boundary in
    between.  When the bytes of the local key that no statement assigns
    are the same in both calls, the second call returns the gate of the
    first and changes nothing.  When they differ (0, then 1), the lookup
    of the second call misses: it makes a second entry, connects again
    and returns another gate, nothing is disconnected, and the table
    holds two gates for the one pair of user mapping and intent. *)
Theorem GetConnection_misses_on_other_stack_bytes :
  let first := Padded.GetConnection demo_user false false 0 demo_padded_start in
  let again := Padded.GetConnection demo_user false false 0 first.1 in
  let other := Padded.GetConnection demo_user false false 1 first.1 in
  first.2 = Ok (mkGate 104 1)
  /\ again = (first.1, Ok (mkGate 104 1))
  /\ other.2 = Ok (mkGate 106 1)
  /\ connects (Padded.trace other.1) = [Ok (mkGate 106 1); Ok (mkGate 104 1)]
  /\ disconnected (Padded.trace other.1) = []
  /\ List.map (fun kv => (Padded.padding kv.1, gate kv.2))
       (Padded.entries_of demo_key other.1)
     = [(0%N, mkGate 104 1); (1%N, mkGate 106 1)].
Proof.
  cbv zeta. repeat split; vm_compute; reflexivity.
Qed.
